(** * Short-link system: encryption, signing and expiry-gated resolution

    A shallow embedding of [ShortLinkSystem] (src/istest.py): the creation of
    a short link ([generate_short_link]) and its resolution
    ([resolve_short_link]) over the table [any_short_chain].

    The Python built-ins the class relies on ([str.split], slicing,
    [bytes.hex], [bytes.fromhex], [sorted], dictionaries) and the SQL the
    class sends to SQLite ([INSERT], [SELECT ... WHERE domain=? AND
    short_code LIKE ?]) are embedded as executable functions.  The
    cryptographic and calendar libraries (gmssl's SM2 and SM4, hashlib,
    datetime) are external to the repository: they are the fields of the
    class [Libs], and the theorems say which of their laws they use.

    Modelling conventions.
    - A Python [str] is a [string]; one [ascii] stands for one character.
    - A Python [bytes] is a [list byte].
    - A naive [datetime] is a [Z], the number of microseconds since an
      arbitrary origin; [valid_hours] is an integer number of hours.
    - The random draws ([uuid.uuid4], [func.random_hex]) and the clock
      readings ([datetime.now]) of one call are explicit inputs.
    - The table is the list of its rows in insertion order.                 *)

From Stdlib Require Import Bool Arith ZArith NArith List Ascii String Strings.Byte.
From Stdlib Require Import Permutation Sorted Lia.
From Stdlib Require Import DecimalString DecimalZ.
Import ListNotations.

Local Open Scope bool_scope.
Local Open Scope list_scope.
Local Open Scope string_scope.

Definition bytes := list byte.
Definition datetime := Z.
Bind Scope Z_scope with datetime.

(** ** Python string built-ins *)

Module Py.

(** [c in s] *)
Fixpoint contains (c : ascii) (s : string) : bool :=
  match s with
  | EmptyString => false
  | String d s' => Ascii.eqb c d || contains c s'
  end.

(** [s.count(c)] for a character [c] *)
Fixpoint count (c : ascii) (s : string) : nat :=
  match s with
  | EmptyString => 0
  | String d s' => (if Ascii.eqb c d then 1 else 0) + count c s'
  end.

(** [all(p(c) for c in s)] *)
Fixpoint forallb_str (p : ascii -> bool) (s : string) : bool :=
  match s with
  | EmptyString => true
  | String c s' => p c && forallb_str p s'
  end.

(** [s[:n]] *)
Fixpoint take (n : nat) (s : string) : string :=
  match n, s with
  | S n', String c s' => String c (take n' s')
  | _, _ => EmptyString
  end.

(** [s.split(sep)] for a non-empty separator: the fields between the
    non-overlapping occurrences of [sep], scanned from the left.  [skip]
    counts the characters of a separator still to be passed over; the head
    of the result is the field being read. *)
Fixpoint split_aux (sep : string) (skip : nat) (s : string) : list string :=
  match s with
  | EmptyString => [EmptyString]
  | String c s' =>
      match skip with
      | S k => split_aux sep k s'
      | O =>
          if String.prefix sep s
          then EmptyString :: split_aux sep (String.length sep - 1) s'
          else match split_aux sep 0 s' with
               | field :: fields => String c field :: fields
               | [] => [String c EmptyString]
               end
      end
  end.

Definition split (sep s : string) : list string := split_aux sep 0 s.

(** ** [bytes.hex] and [bytes.fromhex] *)

Definition hex_digit (n : N) : ascii :=
  match n with
  | 0%N => "0" | 1%N => "1" | 2%N => "2" | 3%N => "3" | 4%N => "4"
  | 5%N => "5" | 6%N => "6" | 7%N => "7" | 8%N => "8" | 9%N => "9"
  | 10%N => "a" | 11%N => "b" | 12%N => "c" | 13%N => "d" | 14%N => "e"
  | _ => "f"
  end%char.

(** Two lowercase digits for each byte, high nibble first. *)
Fixpoint hex (b : bytes) : string :=
  match b with
  | [] => EmptyString
  | x :: b' =>
      String (hex_digit (N.div (Byte.to_N x) 16))
        (String (hex_digit (N.modulo (Byte.to_N x) 16)) (hex b'))
  end.

(** The digits [hex] writes. *)
Definition is_lower_hex (c : ascii) : bool := contains c "0123456789abcdef".

(** The value of a hexadecimal digit of either case. *)
Definition digit_value (c : ascii) : option N :=
  let n := N_of_ascii c in
  if (48 <=? n)%N && (n <=? 57)%N then Some (n - 48)%N
  else if (97 <=? n)%N && (n <=? 102)%N then Some (n - 87)%N
  else if (65 <=? n)%N && (n <=? 70)%N then Some (n - 55)%N
  else None.

(** ASCII white space: tab, line feed, vertical tab, form feed, carriage
    return and space. *)
Definition isspace (c : ascii) : bool :=
  let n := N_of_ascii c in
  ((9 <=? n)%N && (n <=? 13)%N) || (n =? 32)%N.

(** [bytes.fromhex(s)]: white space is passed over between bytes, each byte
    is two hexadecimal digits; anything else raises [ValueError] ([None]). *)
Fixpoint fromhex (s : string) : option bytes :=
  match s with
  | EmptyString => Some []
  | String c rest =>
      if isspace c then fromhex rest
      else
        match digit_value c, rest with
        | Some top, String d rest' =>
            match digit_value d with
            | Some bot =>
                match Byte.of_N (16 * top + bot), fromhex rest' with
                | Some x, Some b => Some (x :: b)
                | _, _ => None
                end
            | None => None
            end
        | _, _ => None
        end
  end.

(** ASCII lower-casing of one character. *)
Definition lower (c : ascii) : ascii :=
  let n := N_of_ascii c in
  if (65 <=? n)%N && (n <=? 90)%N then ascii_of_N (n + 32) else c.

(** ['//' not in s] *)
Fixpoint no_double_slash (s : string) : bool :=
  match s with
  | EmptyString => true
  | String c s' =>
      negb (Ascii.eqb c "/"
            && match s' with
               | String d _ => Ascii.eqb d "/"
               | EmptyString => false
               end)
      && no_double_slash s'
  end.

(** [c * n] for a character [c] *)
Fixpoint repeat (c : ascii) (n : nat) : string :=
  match n with
  | O => EmptyString
  | S n' => String c (repeat c n')
  end.

End Py.

(** ** SQLite's [LIKE]

    The default [LIKE] of SQLite, with no [ESCAPE] clause.  The engine
    refuses a pattern of more than 50000 bytes with the error "LIKE or GLOB
    pattern too complex".  Otherwise it reads the pattern and the text as C
    strings, each up to its first NUL, and compares them: in the pattern,
    [%] stands for any run of characters (the empty one included), [_] for
    exactly one character, and any other character for itself, upper and
    lower case ASCII letters being taken as equal. *)

Module Sqlite.

(** The comparison of a pattern and a text that hold no NUL. *)
Fixpoint like_text (pattern : string) : string -> bool :=
  match pattern with
  | EmptyString =>
      fun s => match s with EmptyString => true | String _ _ => false end
  | String p pattern' =>
      if Ascii.eqb p "%" then
        fix any_run (s : string) : bool :=
          like_text pattern' s
          || match s with
             | EmptyString => false
             | String _ s' => any_run s'
             end
      else
        fun s =>
          match s with
          | EmptyString => false
          | String c s' =>
              (Ascii.eqb p "_" || Ascii.eqb (Py.lower p) (Py.lower c))
              && like_text pattern' s'
          end
  end.

Definition is_nul (c : ascii) : bool := (N_of_ascii c =? 0)%N.

(** A text as a C string: what stands before its first NUL. *)
Fixpoint until_nul (s : string) : string :=
  match s with
  | EmptyString => EmptyString
  | String c s' => if is_nul c then EmptyString else String c (until_nul s')
  end.

(** The bytes of a text in UTF-8: one for a character below 128, two for the
    others. *)
Fixpoint utf8_bytes (s : string) : N :=
  match s with
  | EmptyString => 0
  | String c s' =>
      (if (N_of_ascii c <? 128)%N then 1 else 2) + utf8_bytes s'
  end%N.

(** The patterns the engine accepts: at most 50000 bytes. *)
Definition within_limit (pattern : string) : bool :=
  (utf8_bytes pattern <=? 50000)%N.

(** [text LIKE pattern], for a pattern the engine accepts.  For the others
    the engine raises, which is [fetchone]'s matter; no row is then taken
    as matching. *)
Definition like (pattern s : string) : bool :=
  within_limit pattern && like_text (until_nul pattern) (until_nul s).

(** The two characters [like] does not take literally. *)
Definition is_wildcard (c : ascii) : bool :=
  Ascii.eqb c "%" || Ascii.eqb c "_".

(** The characters a pattern holds for themselves: neither a wild card nor
    the NUL that ends it. *)
Definition is_literal (c : ascii) : bool :=
  negb (is_wildcard c) && negb (is_nul c).

(** [p] is the beginning of [s], upper and lower case ASCII letters being
    taken as equal. *)
Fixpoint prefix_nocase (p s : string) : bool :=
  match p, s with
  | EmptyString, _ => true
  | String a p', String c s' =>
      Ascii.eqb (Py.lower a) (Py.lower c) && prefix_nocase p' s'
  | String _ _, EmptyString => false
  end.

(** A string with its upper case ASCII letters turned to lower case, as
    [like] reads it. *)
Fixpoint fold_case (s : string) : string :=
  match s with
  | EmptyString => EmptyString
  | String c s' => String (Py.lower c) (fold_case s')
  end.

End Sqlite.

(** ** The table [any_short_chain] *)

Module Row.

(** One row, with the columns of [CREATE TABLE] in their order (the index
    used by [record[i]] is given for the columns that are read). *)
Record t := mk {
  id : string;
  domain : string;              (* record[1] *)
  content : string;             (* record[2] *)
  short_code : string;          (* record[3] *)
  useful_time : string;         (* record[4] *)
  status : Z;
  domainKey : string;           (* record[6] *)
  publicKey : string;
  privateKey : string;
  sign : string;                (* record[9] *)
  user_times : Z;
  oper_user : option string;
  create_time : string          (* record[12] *)
}.

(** A row with one column overwritten, as an [UPDATE] from outside the
    service would leave it. *)
Definition set_content (v : string) (r : t) : t :=
  mk (id r) (domain r) v (short_code r) (useful_time r) (status r)
     (domainKey r) (publicKey r) (privateKey r) (sign r) (user_times r)
     (oper_user r) (create_time r).

Definition set_short_code (v : string) (r : t) : t :=
  mk (id r) (domain r) (content r) v (useful_time r) (status r)
     (domainKey r) (publicKey r) (privateKey r) (sign r) (user_times r)
     (oper_user r) (create_time r).

Definition set_domainKey (v : string) (r : t) : t :=
  mk (id r) (domain r) (content r) (short_code r) (useful_time r) (status r)
     v (publicKey r) (privateKey r) (sign r) (user_times r)
     (oper_user r) (create_time r).

Definition set_sign (v : string) (r : t) : t :=
  mk (id r) (domain r) (content r) (short_code r) (useful_time r) (status r)
     (domainKey r) (publicKey r) (privateKey r) v (user_times r)
     (oper_user r) (create_time r).

Definition set_create_time (v : string) (r : t) : t :=
  mk (id r) (domain r) (content r) (short_code r) (useful_time r) (status r)
     (domainKey r) (publicKey r) (privateKey r) (sign r) (user_times r)
     (oper_user r) v.

(** Two rows that agree on every column but the three that hold key
    material in the clear: [domainKey], [publicKey] and [privateKey]. *)
Definition same_but_keys (r1 r2 : t) : Prop :=
  id r1 = id r2 /\ domain r1 = domain r2 /\ content r1 = content r2
  /\ short_code r1 = short_code r2 /\ useful_time r1 = useful_time r2
  /\ status r1 = status r2 /\ sign r1 = sign r2
  /\ user_times r1 = user_times r2 /\ oper_user r1 = oper_user r2
  /\ create_time r1 = create_time r2.

End Row.

(** The table: its rows, oldest first. *)
Definition store := list Row.t.

(** ** Outcomes

    [resolve_short_link] raises [ValueError] with six different messages;
    each is an error of its own here.  [UncaughtError] is any other exception
    that leaves the call: [AttributeError] on a [None] wrapped key, a
    constraint failure of [INSERT], a pattern the engine refuses, a
    [strptime] failure. *)

Inductive error :=
| MalformedAddressError    (* ValueError, line 154 *)
| NotFoundError            (* ValueError, line 164 *)
| ExpiredError             (* ValueError, line 170 *)
| AsymmetricDecryptError   (* ValueError, line 177 *)
| SymmetricDecryptError    (* ValueError, line 184 *)
| IntegrityError           (* ValueError, line 194 *)
| UncaughtError.

Inductive result (A : Type) :=
| Ok (a : A)
| Err (e : error).

Arguments Ok {A} a.
Arguments Err {A} e.

(** A call reads and writes the table and returns or raises. *)
Definition M (A : Type) := store -> result A * store.

Definition ret {A} (a : A) : M A := fun st => (Ok a, st).

Definition raise {A} (e : error) : M A := fun st => (Err e, st).

(** A step that does not touch the table. *)
Definition lift {A} (r : result A) : M A := fun st => (r, st).

Definition bind {A B} (m : M A) (k : A -> M B) : M B :=
  fun st =>
    match m st with
    | (Ok a, st') => k a st'
    | (Err e, st') => (Err e, st')
    end.

Notation "x <- m ;; k" := (bind m (fun x => k))
  (at level 61, m at next level, right associativity).

(** [cursor.execute('SELECT * ... WHERE domain=? AND short_code LIKE ?')]
    followed by [cursor.fetchone()]: the oldest row that qualifies. *)
Definition row_matches (domain pattern : string) (r : Row.t) : bool :=
  String.eqb (Row.domain r) domain && Sqlite.like pattern (Row.short_code r).

(** The table holds a row of the domain. *)
Definition domain_has_row (domain : string) (st : store) : bool :=
  existsb (fun r => String.eqb (Row.domain r) domain) st.

(** The engine tests [domain=?] first and [LIKE] on the rows that pass: a
    pattern it refuses makes it raise [OperationalError] as soon as it reads
    a row of the domain, and goes unnoticed when the domain has no row. *)
Definition fetchone (domain pattern : string) : M (option Row.t) :=
  fun st =>
    if negb (Sqlite.within_limit pattern) && domain_has_row domain st
    then (Err UncaughtError, st)
    else (Ok (find (row_matches domain pattern) st), st).

(** [cursor.execute('INSERT INTO any_short_chain VALUES (...)')] and
    [commit]: [id] is the primary key, a row whose [id] is taken is refused
    and the table is left as it was. *)
Definition id_taken (i : string) (st : store) : bool :=
  existsb (fun r => String.eqb (Row.id r) i) st.

Definition insert (r : Row.t) : M unit :=
  fun st =>
    if id_taken (Row.id r) st then (Err UncaughtError, st)
    else (Ok tt, (st ++ [r])%list).

(** ** Dictionaries and [sorted] *)

(** A [dict] from [str] to [str]: its items in insertion order, the keys
    pairwise distinct. *)
Definition dict := list (string * string).

Definition keys (d : dict) : list string := map fst d.

(** [d[k]], for [k] a key of [d]. *)
Fixpoint getitem (d : dict) (k : string) : string :=
  match d with
  | [] => EmptyString
  | (k', v) :: d' => if String.eqb k k' then v else getitem d' k
  end.

(** [sorted] on strings, compared character by character. *)
Fixpoint insert_sorted (k : string) (l : list string) : list string :=
  match l with
  | [] => [k]
  | k' :: l' => if String.leb k k' then k :: l else k' :: insert_sorted k l'
  end.

Fixpoint sorted (l : list string) : list string :=
  match l with
  | [] => []
  | k :: l' => insert_sorted k (sorted l')
  end.

(** The lists [sorted] returns: each element is below all those after it. *)
Definition ascending (l : list string) : Prop :=
  StronglySorted (fun a b => String.leb a b = true) l.

(** [''.join(l)] *)
Definition join (l : list string) : string := String.concat EmptyString l.

(** ** The libraries *)

Class Libs := {
  (** [hashlib.md5(b).hexdigest()] *)
  md5_hexdigest : bytes -> string;
  (** [hashlib.sha256(b).hexdigest()] *)
  sha256_hexdigest : bytes -> string;
  (** [s.encode()] *)
  str_encode : string -> bytes;
  (** [b.decode()]; [None] when it raises *)
  bytes_decode : bytes -> option string;
  (** [CryptSM4.crypt_ecb] after [set_key(key, SM4_ENCRYPT)] *)
  sm4_encrypt_ecb : bytes -> bytes -> bytes;
  (** [CryptSM4.crypt_ecb] after [set_key(key, SM4_DECRYPT)]; [None] when
      it raises *)
  sm4_decrypt_ecb : bytes -> bytes -> option bytes;
  (** [CryptSM2.encrypt] under a public key, with the random [k] it draws;
      [None] when it returns [None] *)
  sm2_encrypt : string -> string -> bytes -> option bytes;
  (** [CryptSM2.decrypt] under a private key: [None] when it raises,
      [Some None] when it returns [None] *)
  sm2_decrypt : string -> bytes -> option (option bytes);
  (** [t.strftime('%Y-%m-%d %H:%M:%S')] *)
  strftime : datetime -> string;
  (** [datetime.strptime(s, '%Y-%m-%d %H:%M:%S')]; [None] when it raises *)
  strptime : string -> option datetime
}.

(** [timedelta(hours=h)], in microseconds. *)
Definition timedelta_hours (h : Z) : Z := (h * 3600 * 1000000)%Z.

(** The whole second a time falls in: what survives [strftime] with a
    format that has no fraction. *)
Definition whole_second (t : datetime) : datetime := (t - t mod 1000000)%Z.

(** The random draws and clock readings of one [generate_short_link]. *)
Record draws := {
  uuid_key : string;        (* str(uuid.uuid4()), line 64 *)
  random_k : string;        (* func.random_hex, inside CryptSM2.encrypt *)
  now_create : datetime;    (* datetime.now(), line 108 *)
  uuid_id : string;         (* str(uuid.uuid4()), line 118 *)
  now_expiry : datetime     (* datetime.now(), line 119 *)
}.

(** The key pair of the service instance, set once by [__init__]. *)
Record ShortLinkSystem := {
  sm2_private_key : string;
  sm2_public_key : string
}.

(** ** The service *)

Section Service.

Context {L : Libs}.
Variable self : ShortLinkSystem.

(** [_generate_sm4_key], on the identifier drawn. *)
Definition _generate_sm4_key (uuid : string) : bytes :=
  str_encode (Py.take 16 (sha256_hexdigest (str_encode uuid))).

(** [_generate_sign] *)
Definition sign_str (params : dict) : string :=
  join (map (fun k => k ++ getitem params k) (sorted (keys params))).

Definition _generate_sign (params : dict) : string :=
  md5_hexdigest (str_encode (sign_str params)).

(** [_sm4_encrypt] *)
Definition _sm4_encrypt (data : string) (key : bytes) : bytes :=
  sm4_encrypt_ecb key (str_encode data).

(** [_sm4_decrypt]; [None] when it raises.  The key is what
    [CryptSM2.decrypt] returned: on [None], [set_key] raises [TypeError]. *)
Definition _sm4_decrypt (encrypted_data : bytes) (key : option bytes)
  : option string :=
  match key with
  | None => None
  | Some k =>
      match sm4_decrypt_ecb k encrypted_data with
      | Some b => bytes_decode b
      | None => None
      end
  end.

(** Lines 95-98: the host part of the URL. *)
Definition extract_domain (long_url : string) : string :=
  match nth_error (Py.split "//" long_url) 1 with
  | Some rest => hd EmptyString (Py.split "/" rest)
  | None => hd EmptyString (Py.split "/" long_url)
  end.

(** The four fields that are signed. *)
Definition sign_params (domain content create_time : string)
    (domain_key : bytes) : dict :=
  [ ("domain", domain);
    ("content", content);
    ("createTime", create_time);
    ("domainKey", Py.hex domain_key) ].

(** [generate_short_link] *)
Definition generate_short_link (d : draws) (long_url : string)
    (valid_hours : Z) (user : option string) : M string :=
  let domain := extract_domain long_url in
  let domain_key := _generate_sm4_key (uuid_key d) in
  let encrypted_content := _sm4_encrypt long_url domain_key in
  let encrypted_key :=
    sm2_encrypt (sm2_public_key self) (random_k d) domain_key in
  let create_time := strftime (now_create d) in
  let params := sign_params domain long_url create_time domain_key in
  let sign := _generate_sign params in
  let short_id := uuid_id d in
  let useful_time :=
    strftime (now_expiry d + timedelta_hours valid_hours)%Z in
  match encrypted_key with
  | None => raise UncaughtError
  | Some encrypted_key =>
      _ <- insert (Row.mk
             short_id
             domain
             (Py.hex encrypted_content)
             (Py.hex encrypted_key)
             useful_time
             1
             (Py.hex domain_key)
             (sm2_public_key self)
             (sm2_private_key self)
             sign
             0
             user
             create_time) ;;
      ret (domain ++ "/" ++ Py.take 8 (Py.hex encrypted_key))
  end.

(** Line 167-168: the expiry of a row. *)
Definition parse_useful_time (record : Row.t) : option datetime :=
  strptime (hd EmptyString (Py.split "." (Row.useful_time record))).

(** Lines 172-175: the wrapped key, unwrapped; [None] when the block
    raises. *)
Definition unwrap_key (record : Row.t) : option (option bytes) :=
  match Py.fromhex (Row.short_code record) with
  | Some encrypted_key => sm2_decrypt (sm2_private_key self) encrypted_key
  | None => None
  end.

(** Lines 180-182: the content, decrypted; [None] when the block raises. *)
Definition decrypt_content (record : Row.t) (domain_key : option bytes)
  : option string :=
  match Py.fromhex (Row.content record) with
  | Some encrypted_content => _sm4_decrypt encrypted_content domain_key
  | None => None
  end.

(** Lines 166-197: what [resolve_short_link] does with the row it has
    fetched, at the time [now] it reads the clock. *)
Definition check_record (now : datetime) (record : Row.t) : result string :=
  match parse_useful_time record with
  | None => Err UncaughtError
  | Some useful_time =>
      if (now >? useful_time)%Z then Err ExpiredError
      else
        match unwrap_key record with
        | None => Err AsymmetricDecryptError
        | Some domain_key =>
            match decrypt_content record domain_key, domain_key with
            | Some decrypted_content, Some key =>
                let params :=
                  sign_params (Row.domain record) decrypted_content
                    (Row.create_time record) key in
                if String.eqb (_generate_sign params) (Row.sign record)
                then Ok decrypted_content
                else Err IntegrityError
            | _, _ => Err SymmetricDecryptError
            end
        end
  end.

(** [resolve_short_link] *)
Definition resolve_short_link (now : datetime) (short_url : string)
  : M string :=
  match Py.split "/" short_url with
  | [domain; short_code] =>
      record <- fetchone domain (short_code ++ "%") ;;
      match record with
      | None => raise NotFoundError
      | Some record => lift (check_record now record)
      end
  | _ => raise MalformedAddressError
  end.

End Service.

(** The row [generate_short_link] inserts when the wrapped key is
    [encrypted_key]: the tuple of lines 125-139. *)
Definition inserted_row `{L : Libs} (self : ShortLinkSystem) (d : draws)
    (long_url : string) (valid_hours : Z) (user : option string)
    (encrypted_key : bytes) : Row.t :=
  let domain := extract_domain long_url in
  let domain_key := _generate_sm4_key (uuid_key d) in
  let create_time := strftime (now_create d) in
  Row.mk (uuid_id d) domain
    (Py.hex (_sm4_encrypt long_url domain_key))
    (Py.hex encrypted_key)
    (strftime (now_expiry d + timedelta_hours valid_hours)%Z)
    1 (Py.hex domain_key) (sm2_public_key self) (sm2_private_key self)
    (_generate_sign (sign_params domain long_url create_time domain_key))
    0 user create_time.

(** ** Laws of the libraries

    What the theorems below ask of the libraries: decoding undoes encoding,
    SM4 decryption undoes SM4 encryption under the same key, the private key
    of the instance unwraps what its public key wrapped, and a formatted time
    parses back to its whole second and holds no fraction mark. *)

Record LibLaws (L : Libs) (self : ShortLinkSystem) : Prop := {
  decode_encode :
    forall s, bytes_decode (str_encode s) = Some s;
  sm4_decrypt_encrypt :
    forall key b, sm4_decrypt_ecb key (sm4_encrypt_ecb key b) = Some b;
  sm2_decrypt_encrypt :
    forall k b w,
      sm2_encrypt (sm2_public_key self) k b = Some w ->
      sm2_decrypt (sm2_private_key self) w = Some (Some b);
  strptime_strftime :
    forall t, strptime (strftime t) = Some (whole_second t);
  strftime_no_dot :
    forall t, Py.contains "." (strftime t) = false
}.

(** The string that is hashed for the four signed fields: the names in
    ascending order, each followed by its value. *)
Definition signed_string (domain content create_time : string)
    (domain_key : bytes) : string :=
  "content" ++ content ++ "createTime" ++ create_time
  ++ "domain" ++ domain ++ "domainKey" ++ Py.hex domain_key.

(** Two given strings that differ and have one MD5 digest. *)
Definition digests_collide `{L : Libs} (x y : string) : Prop :=
  x <> y /\ md5_hexdigest (str_encode x) = md5_hexdigest (str_encode y).

(** The hexadecimal digits a string ends with: its longest suffix made of
    the digits [hex] writes. *)
Fixpoint hex_tail (s : string) : string :=
  match s with
  | EmptyString => EmptyString
  | String _ s' =>
      if Py.forallb_str Py.is_lower_hex s then s else hex_tail s'
  end.

(** ** The address format of the specification

    Section 4.5 of the specification has [resolve] split the address on the
    first separator, and look the code up as a prefix of the stored code.
    These two definitions follow its words, to be compared with
    [Py.split "/"] and [Sqlite.like]. *)

Module Spec.

(** The text before the first [/] and the text after it; [None] when the
    address has no [/]. *)
Fixpoint split_first (s : string) : option (string * string) :=
  match s with
  | EmptyString => None
  | String c s' =>
      if Ascii.eqb c "/" then Some (EmptyString, s')
      else match split_first s' with
           | Some (a, b) => Some (String c a, b)
           | None => None
           end
  end.

(** The rows of the given domain whose stored code starts with the given
    code. *)
Definition prefix_matches (domain short_code : string) (r : Row.t) : bool :=
  String.eqb (Row.domain r) domain
  && String.prefix short_code (Row.short_code r).

End Spec.

(** ** A small instance of the libraries

    Stand-ins that satisfy [LibLaws] and compute, to run the service on
    concrete inputs: digests are the hexadecimal form of their input, SM4 is
    the reversal of the bytes, SM2 puts four bytes drawn from [k] before the
    message, and a time is printed as its number of seconds. *)

Module Toy.

Definition pad4 (b : bytes) : bytes :=
  firstn 4 (b ++ [x00; x00; x00; x00])%list.

#[export] Instance libs : Libs := {
  md5_hexdigest := Py.hex;
  sha256_hexdigest := Py.hex;
  str_encode := list_byte_of_string;
  bytes_decode := fun b => Some (string_of_list_byte b);
  sm4_encrypt_ecb := fun _ b => rev b;
  sm4_decrypt_ecb := fun _ b => Some (rev b);
  sm2_encrypt := fun _ k b => Some (pad4 (list_byte_of_string k) ++ b)%list;
  sm2_decrypt := fun _ b => Some (Some (skipn 4 b));
  strftime := fun t => NilEmpty.string_of_int (Z.to_int (t / 1000000));
  strptime := fun s =>
    match NilEmpty.int_of_string s with
    | Some i => Some (Z.of_int i * 1000000)%Z
    | None => None
    end
}.

Definition self : ShortLinkSystem :=
  {| sm2_private_key := "1f"; sm2_public_key := "2e" |}.

(** Two creations at second 100 that draw the same [k]. *)
Definition draws1 : draws :=
  {| uuid_key := "u1"; random_k := "kkkk"; now_create := 100000000%Z;
     uuid_id := "id1"; now_expiry := 100000000%Z |}.

Definition draws2 : draws :=
  {| uuid_key := "u2"; random_k := "kkkk"; now_create := 100000000%Z;
     uuid_id := "id2"; now_expiry := 100000000%Z |}.

Definition url1 : string := "https://a.example/p?q=1".
Definition url2 : string := "https://a.example/other".

(** The key [url1] is encrypted under, wrapped. *)
Definition wrapped1 : bytes :=
  (pad4 (list_byte_of_string "kkkk")
   ++ _generate_sm4_key (L := libs) "u1")%list.

(** The row of [url1], shortened for one hour by ["alice"]. *)
Definition row1 : Row.t :=
  inserted_row (L := libs) self draws1 url1 1 (Some "alice") wrapped1.

(** The table after that creation, and the address returned. *)
Definition store1 : store := [row1].

Definition address1 : string := "a.example/6b6b6b6b".

(** The table after [url2] has then been shortened too. *)
Definition store2 : store :=
  snd (generate_short_link (L := libs) self draws2 url2 1 None store1).

(** A URL that holds the name of a signed field, and its row. *)
Definition url3 : string := "https://a.example/?createTime=1".

Definition draws3 : draws :=
  {| uuid_key := "u3"; random_k := "rrrr"; now_create := 100000000%Z;
     uuid_id := "id3"; now_expiry := 100000000%Z |}.

Definition wrapped3 : bytes :=
  (pad4 (list_byte_of_string "rrrr")
   ++ _generate_sm4_key (L := libs) "u3")%list.

Definition row3 : Row.t :=
  inserted_row (L := libs) self draws3 url3 1 None wrapped3.

(** [row1] with other values in the three columns of key material. *)
Definition row1_rekeyed : Row.t :=
  Row.mk (Row.id row1) (Row.domain row1) (Row.content row1)
    (Row.short_code row1) (Row.useful_time row1) (Row.status row1)
    "00" "" "" (Row.sign row1) (Row.user_times row1)
    (Row.oper_user row1) (Row.create_time row1).

End Toy.

(** * Properties *)

(** ** The order of [sorted] *)

Lemma ascii_compare_refl (a : ascii) : Ascii.compare a a = Eq.
Proof. unfold Ascii.compare. apply N.compare_refl. Qed.

Lemma compare_lt_trans (a b c : string) :
  String.compare a b = Lt -> String.compare b c = Lt ->
  String.compare a c = Lt.
Proof.
  revert b c.
  induction a as [|x a IH]; intros [|y b] [|z c]; simpl; try congruence.
  unfold Ascii.compare.
  destruct (N.compare_spec (N_of_ascii x) (N_of_ascii y)) as [Hxy|Hxy|Hxy];
    try discriminate;
    destruct (N.compare_spec (N_of_ascii y) (N_of_ascii z)) as [Hyz|Hyz|Hyz];
    try discriminate; intros Hab Hbc.
  - rewrite Hxy, Hyz, N.compare_refl. eauto.
  - rewrite Hxy. apply N.compare_lt_iff in Hyz. now rewrite Hyz.
  - rewrite <- Hyz. apply N.compare_lt_iff in Hxy. now rewrite Hxy.
  - assert (H : (N_of_ascii x < N_of_ascii z)%N) by lia.
    apply N.compare_lt_iff in H. now rewrite H.
Qed.

Lemma leb_lt_or_eq (a b : string) :
  String.leb a b = true <-> String.compare a b = Lt \/ a = b.
Proof.
  unfold String.leb. split.
  - destruct (String.compare a b) eqn:E; intros H; try discriminate.
    + right. now apply String.compare_eq_iff.
    + now left.
  - intros [H | ->].
    + now rewrite H.
    + assert (E : String.compare b b = Eq).
      { induction b as [|x b IH]; simpl; [reflexivity|].
        now rewrite ascii_compare_refl. }
      now rewrite E.
Qed.

Lemma leb_trans (a b c : string) :
  String.leb a b = true -> String.leb b c = true -> String.leb a c = true.
Proof.
  rewrite !leb_lt_or_eq. intros [Hab | ->] [Hbc | ->]; auto.
  left. eapply compare_lt_trans; eauto.
Qed.

Lemma insert_sorted_perm (k : string) (l : list string) :
  Permutation (insert_sorted k l) (k :: l).
Proof.
  induction l as [|x l IH]; simpl; [reflexivity|].
  destruct (String.leb k x); [reflexivity|].
  rewrite IH. apply perm_swap.
Qed.

Lemma sorted_perm (l : list string) : Permutation (sorted l) l.
Proof.
  induction l as [|x l IH]; simpl; [constructor|].
  rewrite insert_sorted_perm. now constructor.
Qed.

Lemma insert_sorted_ascending (k : string) (l : list string) :
  ascending l -> ascending (insert_sorted k l).
Proof.
  unfold ascending. induction 1 as [|x l Hl IH Hx]; simpl.
  - repeat constructor.
  - destruct (String.leb k x) eqn:E.
    + constructor; [now constructor|].
      constructor; [assumption|].
      eapply Forall_impl; [|exact Hx].
      intros y Hy. simpl in Hy. eapply leb_trans; eauto.
    + constructor; [assumption|].
      eapply Permutation_Forall.
      * symmetry. apply insert_sorted_perm.
      * constructor; [|assumption].
        destruct (String.leb_total k x) as [H|H]; congruence.
Qed.

Lemma sorted_ascending (l : list string) : ascending (sorted l).
Proof.
  induction l as [|x l IH]; simpl.
  - constructor.
  - now apply insert_sorted_ascending.
Qed.

(** An ascending list is determined by its elements. *)
Lemma ascending_unique (l1 l2 : list string) :
  ascending l1 -> ascending l2 -> Permutation l1 l2 -> l1 = l2.
Proof.
  unfold ascending. intros H1; revert l2.
  induction H1 as [|x l1 Hl1 IH Hx]; intros l2 H2 HP.
  - apply Permutation_nil in HP. now subst.
  - destruct H2 as [|y l2 Hl2 Hy].
    + symmetry in HP. now apply Permutation_nil in HP.
    + assert (Exy : x = y).
      { assert (Ix : In x (y :: l2))
          by (eapply Permutation_in; [exact HP | now left]).
        assert (Iy : In y (x :: l1))
          by (eapply Permutation_in; [symmetry; exact HP | now left]).
        destruct Ix as [->|Ix]; [reflexivity|].
        destruct Iy as [->|Iy]; [reflexivity|].
        rewrite Forall_forall in Hx, Hy.
        apply String.leb_antisym; auto. }
      subst y. f_equal. apply IH; [assumption|].
      eapply Permutation_cons_inv; eassumption.
Qed.

Lemma sorted_permutation (l1 l2 : list string) :
  Permutation l1 l2 -> sorted l1 = sorted l2.
Proof.
  intros HP. apply ascending_unique; try apply sorted_ascending.
  rewrite !sorted_perm. assumption.
Qed.

(** ** Dictionaries *)

Lemma getitem_in (d : dict) (k v : string) :
  NoDup (keys d) -> In (k, v) d -> getitem d k = v.
Proof.
  induction d as [|[k' v'] d IH]; simpl; intros ND HI; [contradiction|].
  inversion ND as [|? ? Hnotin ND']; subst.
  destruct HI as [E|HI].
  - inversion E; subst. now rewrite String.eqb_refl.
  - destruct (String.eqb_spec k k') as [->|_].
    + exfalso. apply Hnotin. unfold keys.
      change k' with (fst (k', v)). now apply in_map.
    + auto.
Qed.

Lemma getitem_permutation (d1 d2 : dict) (k : string) :
  NoDup (keys d1) -> Permutation d1 d2 -> In k (keys d1) ->
  getitem d2 k = getitem d1 k.
Proof.
  intros ND HP Hk.
  assert (ND2 : NoDup (keys d2)).
  { eapply Permutation_NoDup; [|exact ND]. unfold keys.
    now apply Permutation_map. }
  unfold keys in Hk. apply in_map_iff in Hk.
  destruct Hk as [[k' v] [E HI]]. simpl in E. subst k'.
  rewrite (getitem_in d1 k v ND HI).
  apply getitem_in; [assumption|].
  eapply Permutation_in; eassumption.
Qed.

(** ** Signing *)

Lemma append_length (a b : string) :
  String.length (a ++ b) = String.length a + String.length b.
Proof. induction a as [|x a IH]; simpl; [reflexivity | now rewrite IH]. Qed.

Lemma append_assoc (a b c : string) : (a ++ b) ++ c = a ++ (b ++ c).
Proof. induction a as [|x a IH]; simpl; [reflexivity | now rewrite IH]. Qed.

(** The string that is hashed for the four signed fields. *)
Lemma sign_str_params `{L : Libs} (domain content create_time : string)
    (domain_key : bytes) :
  sign_str (sign_params domain content create_time domain_key)
  = "content" ++ content ++ "createTime" ++ create_time
    ++ "domain" ++ domain ++ "domainKey" ++ Py.hex domain_key.
Proof.
  unfold sign_str, sign_params, join. cbn. reflexivity.
Qed.

(** The items of a dictionary in the order of their names. *)
Lemma sorted_items (p : dict) :
  NoDup (keys p) ->
  Permutation (map (fun k => (k, getitem p k)) (sorted (keys p))) p.
Proof.
  intros ND.
  apply perm_trans with (l' := map (fun k => (k, getitem p k)) (keys p)).
  - apply Permutation_map, sorted_perm.
  - unfold keys. rewrite map_map.
    rewrite (map_ext_in _ (fun item => item)); [now rewrite map_id|].
    intros [k v] Hin. cbn [fst]. f_equal. now apply getitem_in.
Qed.

(** C5. [_generate_sign] hashes the items of the dictionary taken in the
    ascending order of their names, each name immediately followed by its
    own value, with nothing in between; hence two dictionaries holding the
    same items in any insertion order have the same signature (and a
    dictionary signed twice has one signature). *)
Theorem generate_sign_order_independent `{L : Libs} (p q : dict) :
  NoDup (keys p) -> Permutation p q ->
  (exists items : list (string * string),
      Permutation items p
      /\ ascending (map fst items)
      /\ _generate_sign p
         = md5_hexdigest
             (str_encode
                (String.concat ""
                   (map (fun item => fst item ++ snd item) items))))
  /\ _generate_sign q = _generate_sign p.
Proof.
  intros ND HP. split.
  - exists (map (fun k => (k, getitem p k)) (sorted (keys p))).
    split; [now apply sorted_items|]. split.
    + rewrite map_map. cbn [fst]. rewrite map_id. apply sorted_ascending.
    + unfold _generate_sign, sign_str, join. now rewrite map_map.
  - unfold _generate_sign, sign_str. do 3 f_equal.
    assert (HK : Permutation (keys p) (keys q))
      by (unfold keys; now apply Permutation_map).
    rewrite <- (sorted_permutation _ _ HK).
    apply map_ext_in. intros k Hk. f_equal.
    apply getitem_permutation; try assumption.
    eapply Permutation_in; [apply sorted_perm | exact Hk].
Qed.

Lemma generate_sign_order_independent_witness :
  _generate_sign (L := Toy.libs)
    [("domain", "a.example"); ("content", "u"); ("createTime", "100");
     ("domainKey", "6b")]
  = _generate_sign (L := Toy.libs)
    [("createTime", "100"); ("domainKey", "6b"); ("content", "u");
     ("domain", "a.example")].
Proof.
  refine (proj2
    (generate_sign_order_independent (L := Toy.libs)
       [("createTime", "100"); ("domainKey", "6b"); ("content", "u");
        ("domain", "a.example")]
       [("domain", "a.example"); ("content", "u"); ("createTime", "100");
        ("domainKey", "6b")] _ _)).
  - repeat constructor; simpl; intuition discriminate.
  - apply Permutation_sym.
    apply perm_trans with
      (l' := [("content", "u"); ("domain", "a.example");
              ("createTime", "100"); ("domainKey", "6b")]).
    + apply perm_swap.
    + apply perm_trans with
        (l' := [("content", "u"); ("createTime", "100");
                ("domain", "a.example"); ("domainKey", "6b")]).
      * apply perm_skip, perm_swap.
      * apply perm_trans with
          (l' := [("createTime", "100"); ("content", "u");
                  ("domain", "a.example"); ("domainKey", "6b")]).
        -- apply perm_swap.
        -- apply perm_skip.
           apply perm_trans with
             (l' := [("content", "u"); ("domainKey", "6b");
                     ("domain", "a.example")]).
           ++ apply perm_skip, perm_swap.
           ++ apply perm_swap.
Defined.

(** ** [split] on a one-character separator *)

Lemma prefix_empty (s : string) : String.prefix "" s = true.
Proof. destruct s; reflexivity. Qed.

Lemma split_char_cons (c d : ascii) (s : string) :
  Py.split (String c "") (String d s)
  = if Ascii.eqb c d then "" :: Py.split (String c "") s
    else match Py.split (String c "") s with
         | field :: fields => String d field :: fields
         | [] => [String d ""]
         end.
Proof.
  unfold Py.split. simpl.
  destruct (ascii_dec c d) as [->|Hcd].
  - now rewrite prefix_empty, Ascii.eqb_refl.
  - apply Ascii.eqb_neq in Hcd. now rewrite Hcd.
Qed.

Lemma split_char_length (c : ascii) (s : string) :
  List.length (Py.split (String c "") s) = S (Py.count c s).
Proof.
  induction s as [|d s IH]; [reflexivity|].
  rewrite split_char_cons. simpl Py.count.
  destruct (Ascii.eqb c d); simpl.
  - now rewrite IH.
  - destruct (Py.split (String c "") s); simpl in *;
      [discriminate | assumption].
Qed.

Lemma count_contains (c : ascii) (s : string) :
  Py.count c s = 0 <-> Py.contains c s = false.
Proof.
  induction s as [|d s IH]; simpl; [tauto|].
  destruct (Ascii.eqb c d); simpl; [split; discriminate | exact IH].
Qed.

Lemma split_char_absent (c : ascii) (s : string) :
  Py.contains c s = false -> Py.split (String c "") s = [s].
Proof.
  induction s as [|d s IH]; [reflexivity|].
  rewrite split_char_cons. simpl.
  destruct (Ascii.eqb c d); simpl; [discriminate|].
  intros H. now rewrite IH.
Qed.

Lemma split_char_append (c : ascii) (a b : string) :
  Py.contains c a = false ->
  Py.split (String c "") (a ++ String c b) = a :: Py.split (String c "") b.
Proof.
  induction a as [|d a IH]; simpl String.append.
  - intros _. now rewrite split_char_cons, Ascii.eqb_refl.
  - simpl. destruct (Ascii.eqb c d) eqn:E; simpl; [discriminate|].
    intros H. now rewrite split_char_cons, E, IH.
Qed.

Lemma split_char_hd (c : ascii) (s : string) :
  Py.contains c (hd "" (Py.split (String c "") s)) = false.
Proof.
  induction s as [|d s IH]; [reflexivity|].
  rewrite split_char_cons.
  destruct (Ascii.eqb c d) eqn:E; [reflexivity|].
  destruct (Py.split (String c "") s) as [|f fs]; simpl in *.
  - now rewrite E.
  - now rewrite E.
Qed.

(** An address with exactly one [/] is its two fields around the [/]. *)
Lemma split_slash_two (s : string) :
  Py.count "/" s = 1 ->
  exists a b, Py.split "/" s = [a; b] /\ s = a ++ "/" ++ b
              /\ Py.contains "/" a = false /\ Py.contains "/" b = false.
Proof.
  induction s as [|d s IH]; [discriminate|].
  rewrite split_char_cons. cbn [Py.count].
  destruct (Ascii.eqb "/" d) eqn:E; cbn [Nat.add].
  - intros H. injection H as H. apply count_contains in H.
    apply Ascii.eqb_eq in E. subst d.
    exists "", s. rewrite (split_char_absent _ _ H). auto.
  - intros H. destruct (IH H) as (a & b & Hs & -> & Ha & Hb).
    exists (String d a), b. rewrite Hs. cbn [Py.contains]. rewrite E. auto.
Qed.

(** ** [hex] and [fromhex] *)

Lemma forallb_str_append (p : ascii -> bool) (a b : string) :
  Py.forallb_str p (a ++ b) = Py.forallb_str p a && Py.forallb_str p b.
Proof.
  induction a as [|x a IH]; simpl; [reflexivity|].
  now rewrite IH, andb_assoc.
Qed.

Lemma forallb_str_impl (p q : ascii -> bool) (s : string) :
  (forall c, p c = true -> q c = true) ->
  Py.forallb_str p s = true -> Py.forallb_str q s = true.
Proof.
  intros Hpq. induction s as [|x s IH]; simpl; [reflexivity|].
  intros H. apply andb_true_iff in H. destruct H as [Hx Hs].
  now rewrite (Hpq _ Hx), IH.
Qed.

Lemma forallb_str_take (p : ascii -> bool) (n : nat) (s : string) :
  Py.forallb_str p s = true -> Py.forallb_str p (Py.take n s) = true.
Proof.
  revert s. induction n as [|n IH]; intros [|x s]; simpl; try reflexivity.
  intros H. apply andb_true_iff in H. destruct H as [Hx Hs].
  now rewrite Hx, IH.
Qed.

Lemma forallb_str_absent (p : ascii -> bool) (c : ascii) (s : string) :
  p c = false -> Py.forallb_str p s = true -> Py.contains c s = false.
Proof.
  intros Hc. induction s as [|x s IH]; simpl; [reflexivity|].
  intros H. apply andb_true_iff in H. destruct H as [Hx Hs].
  rewrite (IH Hs), orb_false_r.
  apply Ascii.eqb_neq. intros ->. congruence.
Qed.

Lemma hex_byte_lower (x : byte) :
  Py.is_lower_hex (Py.hex_digit (Byte.to_N x / 16))
  && Py.is_lower_hex (Py.hex_digit (Byte.to_N x mod 16)) = true.
Proof. destruct x; reflexivity. Qed.

Lemma hex_lower (b : bytes) : Py.forallb_str Py.is_lower_hex (Py.hex b) = true.
Proof.
  induction b as [|x b IH]; simpl; [reflexivity|].
  rewrite IH, andb_true_r. apply hex_byte_lower.
Qed.

Lemma fromhex_hex_byte (x : byte) (rest : string) :
  Py.fromhex
    (String (Py.hex_digit (Byte.to_N x / 16))
       (String (Py.hex_digit (Byte.to_N x mod 16)) rest))
  = match Py.fromhex rest with
    | Some b => Some (x :: b)
    | None => None
    end.
Proof. destruct x; reflexivity. Qed.

Lemma fromhex_hex (b : bytes) : Py.fromhex (Py.hex b) = Some b.
Proof.
  induction b as [|x b IH]; simpl Py.hex; [reflexivity|].
  now rewrite fromhex_hex_byte, IH.
Qed.

Lemma take_append (n : nat) (s : string) :
  exists rest, s = Py.take n s ++ rest.
Proof.
  revert s. induction n as [|n IH]; intros s.
  - exists s. now destruct s.
  - destruct s as [|x s]; [now exists ""|].
    destruct (IH s) as [rest E]. exists rest. simpl. now rewrite <- E.
Qed.

(** ** [like] with the pattern [code%] *)

Lemma like_text_percent (s : string) : Sqlite.like_text "%" s = true.
Proof. induction s as [|c s IH]; [reflexivity | exact IH]. Qed.

Lemma like_text_code_percent (code s : string) :
  Py.forallb_str (fun c => negb (Sqlite.is_wildcard c)) code = true ->
  Sqlite.like_text (code ++ "%") s = Sqlite.prefix_nocase code s.
Proof.
  revert s. induction code as [|p code IH]; intros s; simpl String.append.
  - intros _. rewrite like_text_percent. now destruct s.
  - simpl Py.forallb_str. intros H. apply andb_true_iff in H.
    destruct H as [Hp Hcode]. unfold Sqlite.is_wildcard in Hp.
    apply negb_true_iff, orb_false_iff in Hp. destruct Hp as [Hp1 Hp2].
    simpl. rewrite Hp1, Hp2. destruct s as [|c s]; [reflexivity|].
    simpl. now rewrite IH.
Qed.

Lemma until_nul_absent (s : string) :
  Py.forallb_str (fun c => negb (Sqlite.is_nul c)) s = true ->
  Sqlite.until_nul s = s.
Proof.
  induction s as [|c s IH]; [reflexivity|].
  cbn [Py.forallb_str Sqlite.until_nul]. intros H.
  apply andb_true_iff in H. destruct H as [Hc Hs].
  apply negb_true_iff in Hc. now rewrite Hc, IH.
Qed.

Lemma literal_pattern (code : string) :
  Py.forallb_str Sqlite.is_literal code = true ->
  Sqlite.until_nul (code ++ "%") = code ++ "%"
  /\ Py.forallb_str (fun c => negb (Sqlite.is_wildcard c)) code = true.
Proof.
  intros H. split.
  - apply until_nul_absent. rewrite forallb_str_append.
    rewrite (forallb_str_impl Sqlite.is_literal _ code); [reflexivity| |exact H].
    intros c Hc. unfold Sqlite.is_literal in Hc.
    now apply andb_true_iff in Hc.
  - eapply forallb_str_impl; [|exact H].
    intros c Hc. unfold Sqlite.is_literal in Hc.
    now apply andb_true_iff in Hc.
Qed.

(** A code of literal characters, in a pattern the engine accepts, is a
    prefix test on the text up to its first NUL. *)
Lemma like_code_percent (code s : string) :
  Py.forallb_str Sqlite.is_literal code = true ->
  Sqlite.within_limit (code ++ "%") = true ->
  Sqlite.like (code ++ "%") s
  = Sqlite.prefix_nocase code (Sqlite.until_nul s).
Proof.
  intros Hc Hl. unfold Sqlite.like. rewrite Hl. cbn [andb].
  destruct (literal_pattern code Hc) as [-> Hw].
  now apply like_text_code_percent.
Qed.

Lemma like_within_limit (pattern s : string) :
  Sqlite.like pattern s = true -> Sqlite.within_limit pattern = true.
Proof. unfold Sqlite.like. intros H. now apply andb_true_iff in H. Qed.

Lemma utf8_bytes_length (s : string) :
  (Sqlite.utf8_bytes s <= 2 * N.of_nat (String.length s))%N.
Proof.
  induction s as [|c s IH]; cbn [Sqlite.utf8_bytes String.length]; [lia|].
  destruct (N_of_ascii c <? 128)%N; lia.
Qed.

Lemma within_limit_short (pattern : string) :
  (N.of_nat (String.length pattern) <= 25000)%N ->
  Sqlite.within_limit pattern = true.
Proof.
  intros H. unfold Sqlite.within_limit. apply N.leb_le.
  pose proof (utf8_bytes_length pattern). lia.
Qed.

Lemma take_length_le (n : nat) (s : string) :
  String.length (Py.take n s) <= n.
Proof.
  revert s. induction n as [|n IH]; intros [|c s]; simpl; try lia.
  specialize (IH s). lia.
Qed.

Lemma lower_hex_literal (c : ascii) :
  Py.is_lower_hex c = true -> Sqlite.is_literal c = true.
Proof.
  unfold Py.is_lower_hex. simpl. intros H.
  repeat (apply orb_true_iff in H; destruct H as [H|H];
          [apply Ascii.eqb_eq in H; subst c; reflexivity|]).
  discriminate.
Qed.

Lemma until_nul_lower_hex (s : string) :
  Py.forallb_str Py.is_lower_hex s = true -> Sqlite.until_nul s = s.
Proof.
  intros H. apply until_nul_absent.
  eapply forallb_str_impl; [|exact H].
  intros c Hc. apply lower_hex_literal in Hc.
  unfold Sqlite.is_literal in Hc. now apply andb_true_iff in Hc.
Qed.

Lemma prefix_nocase_append (p rest : string) :
  Sqlite.prefix_nocase p (p ++ rest) = true.
Proof.
  induction p as [|a p IH]; simpl; [reflexivity|].
  now rewrite Ascii.eqb_refl, IH.
Qed.

Lemma lower_hex_not_wildcard (c : ascii) :
  Py.is_lower_hex c = true -> negb (Sqlite.is_wildcard c) = true.
Proof.
  unfold Py.is_lower_hex. simpl. intros H.
  repeat (apply orb_true_iff in H; destruct H as [H|H];
          [apply Ascii.eqb_eq in H; subst c; reflexivity|]).
  discriminate.
Qed.

(** ** Resolution, step by step *)

Section Resolution.

Context {L : Libs}.
Variable self : ShortLinkSystem.

(** [resolve_short_link] with the table made explicit. *)
Lemma resolve_unfold (now : datetime) (short_url : string) (st : store) :
  resolve_short_link self now short_url st
  = match Py.split "/" short_url with
    | [domain; short_code] =>
        if negb (Sqlite.within_limit (short_code ++ "%"))
           && domain_has_row domain st
        then (Err UncaughtError, st)
        else
          match find (row_matches domain (short_code ++ "%")) st with
          | Some record => (check_record self now record, st)
          | None => (Err NotFoundError, st)
          end
    | _ => (Err MalformedAddressError, st)
    end.
Proof.
  unfold resolve_short_link.
  destruct (Py.split "/" short_url) as [|a [|b [|c l]]]; try reflexivity.
  unfold bind, fetchone.
  destruct (negb (Sqlite.within_limit (b ++ "%")) && domain_has_row a st);
    [reflexivity|].
  destruct (find (row_matches a (b ++ "%")) st); reflexivity.
Qed.

(** A row that qualifies was compared under a pattern the engine accepts. *)
Lemma find_within_limit (domain pattern : string) (st : store)
    (record : Row.t) :
  find (row_matches domain pattern) st = Some record ->
  Sqlite.within_limit pattern = true.
Proof.
  intros H. apply find_some in H. destruct H as [_ H].
  unfold row_matches in H. apply andb_true_iff in H.
  destruct H as [_ H]. now apply like_within_limit in H.
Qed.

(** [resolve_short_link] when the lookup has a row. *)
Lemma resolve_found (now : datetime) (short_url domain short_code : string)
    (st : store) (record : Row.t) :
  Py.split "/" short_url = [domain; short_code] ->
  find (row_matches domain (short_code ++ "%")) st = Some record ->
  resolve_short_link self now short_url st
  = (check_record self now record, st).
Proof.
  intros Hs Hf. rewrite resolve_unfold, Hs, Hf.
  now rewrite (find_within_limit _ _ _ _ Hf).
Qed.

(** [resolve_short_link] under a pattern the engine accepts. *)
Lemma resolve_within (now : datetime) (short_url domain short_code : string)
    (st : store) :
  Py.split "/" short_url = [domain; short_code] ->
  Sqlite.within_limit (short_code ++ "%") = true ->
  resolve_short_link self now short_url st
  = match find (row_matches domain (short_code ++ "%")) st with
    | Some record => (check_record self now record, st)
    | None => (Err NotFoundError, st)
    end.
Proof. intros Hs Hl. now rewrite resolve_unfold, Hs, Hl. Qed.

(** The checks on a fetched row raise neither of the two errors of the
    steps before them. *)
Lemma check_record_errors (now : datetime) (record : Row.t) :
  check_record self now record <> Err NotFoundError
  /\ check_record self now record <> Err MalformedAddressError.
Proof.
  unfold check_record.
  destruct (parse_useful_time record) as [e|]; [|split; discriminate].
  destruct (now >? e)%Z; [split; discriminate|].
  destruct (unwrap_key self record) as [k|]; [|split; discriminate].
  destruct (decrypt_content record k) as [s|]; [|split; discriminate].
  destruct k as [k|]; [|split; discriminate].
  destruct (String.eqb _ _); split; discriminate.
Qed.

(** What a successful check says of the row. *)
Lemma check_record_ok (now : datetime) (record : Row.t) (s : string) :
  check_record self now record = Ok s <->
  exists useful_time key,
    parse_useful_time record = Some useful_time
    /\ (now <= useful_time)%Z
    /\ unwrap_key self record = Some (Some key)
    /\ decrypt_content record (Some key) = Some s
    /\ _generate_sign
         (sign_params (Row.domain record) s (Row.create_time record) key)
       = Row.sign record.
Proof.
  unfold check_record. split.
  - destruct (parse_useful_time record) as [e|]; [|discriminate].
    destruct (Z.gtb_spec now e) as [Hlt|Hle]; [discriminate|].
    destruct (unwrap_key self record) as [[k|]|]; try discriminate.
    + destruct (decrypt_content record (Some k)) as [s'|] eqn:Hs;
        [|discriminate].
      destruct (String.eqb_spec
                  (_generate_sign
                     (sign_params (Row.domain record) s'
                        (Row.create_time record) k))
                  (Row.sign record)) as [E|E]; [|discriminate].
      intros H. injection H as <-. exists e, k. repeat split; assumption.
    + destruct (decrypt_content record None); discriminate.
  - intros (e & k & -> & Hle & -> & -> & E).
    destruct (Z.gtb_spec now e) as [Hlt|_]; [lia|].
    now rewrite E, String.eqb_refl.
Qed.

(** What a signature mismatch says of the row. *)
Lemma check_record_integrity (now : datetime) (record : Row.t) :
  check_record self now record = Err IntegrityError <->
  exists useful_time key s,
    parse_useful_time record = Some useful_time
    /\ (now <= useful_time)%Z
    /\ unwrap_key self record = Some (Some key)
    /\ decrypt_content record (Some key) = Some s
    /\ _generate_sign
         (sign_params (Row.domain record) s (Row.create_time record) key)
       <> Row.sign record.
Proof.
  unfold check_record. split.
  - destruct (parse_useful_time record) as [e|]; [|discriminate].
    destruct (Z.gtb_spec now e) as [Hlt|Hle]; [discriminate|].
    destruct (unwrap_key self record) as [[k|]|]; try discriminate.
    + destruct (decrypt_content record (Some k)) as [s'|] eqn:Hs;
        [|discriminate].
      destruct (String.eqb_spec
                  (_generate_sign
                     (sign_params (Row.domain record) s'
                        (Row.create_time record) k))
                  (Row.sign record)) as [E|E]; [discriminate|].
      intros _. exists e, k, s'. repeat split; assumption.
    + destruct (decrypt_content record None); discriminate.
  - intros (e & k & s & -> & Hle & -> & -> & E).
    destruct (Z.gtb_spec now e) as [Hlt|_]; [lia|].
    apply String.eqb_neq in E. now rewrite E.
Qed.

(** The first row that qualifies is the one fetched. *)
Lemma find_first (p : Row.t -> bool) (pre post : store) (r : Row.t) :
  (forall x, In x pre -> p x = false) -> p r = true ->
  find p (pre ++ r :: post)%list = Some r.
Proof.
  induction pre as [|x pre IH]; simpl; intros Hpre Hr.
  - now rewrite Hr.
  - rewrite (Hpre x (or_introl eq_refl)). apply IH; auto.
Qed.

Lemma find_none_iff (p : Row.t -> bool) (st : store) :
  find p st = None <-> forall x, In x st -> p x = false.
Proof.
  split.
  - intros H x Hx. now apply (find_none p st H x).
  - induction st as [|x st IH]; simpl; intros H; [reflexivity|].
    rewrite (H x (or_introl eq_refl)). apply IH. auto.
Qed.

End Resolution.

(** ** The address and the lookup *)

(** C3 (as amended).  [resolve_short_link] splits the address on every [/]
    and goes on only when that gives exactly two fields, the domain and the
    code: an address with no [/] raises the malformed-address error whatever
    the table holds, and so does an address with two or more; an address
    with exactly one [/] is looked up under the text before it and the text
    after it (the engine refusing a pattern of more than 50000 bytes as soon
    as it reads a row of the domain). *)
Theorem resolve_malformed_address `{L : Libs} (self : ShortLinkSystem)
    (now : datetime) (short_url : string) (st : store) :
  (Py.contains "/" short_url = false ->
   resolve_short_link self now short_url st = (Err MalformedAddressError, st))
  /\ (Py.count "/" short_url <> 1 <->
      resolve_short_link self now short_url st
      = (Err MalformedAddressError, st))
  /\ (Py.count "/" short_url = 1 ->
      exists domain short_code,
        short_url = domain ++ "/" ++ short_code
        /\ Py.contains "/" domain = false
        /\ Py.contains "/" short_code = false
        /\ resolve_short_link self now short_url st
           = if negb (Sqlite.within_limit (short_code ++ "%"))
                && domain_has_row domain st
             then (Err UncaughtError, st)
             else
               match find (row_matches domain (short_code ++ "%")) st with
               | Some record => (check_record self now record, st)
               | None => (Err NotFoundError, st)
               end).
Proof.
  assert (Hmal : Py.count "/" short_url <> 1 ->
                 resolve_short_link self now short_url st
                 = (Err MalformedAddressError, st)).
  { intros Hc. rewrite resolve_unfold.
    pose proof (split_char_length "/" short_url) as Hlen.
    change (String "/" "") with "/" in Hlen.
    destruct (Py.split "/" short_url) as [|a [|b [|c l]]]; try reflexivity.
    simpl in Hlen. congruence. }
  assert (Hone : Py.count "/" short_url = 1 ->
      exists domain short_code,
        short_url = domain ++ "/" ++ short_code
        /\ Py.contains "/" domain = false
        /\ Py.contains "/" short_code = false
        /\ resolve_short_link self now short_url st
           = if negb (Sqlite.within_limit (short_code ++ "%"))
                && domain_has_row domain st
             then (Err UncaughtError, st)
             else
               match find (row_matches domain (short_code ++ "%")) st with
               | Some record => (check_record self now record, st)
               | None => (Err NotFoundError, st)
               end).
  { intros Hc. destruct (split_slash_two _ Hc) as (a & b & Hs & E & Ha & Hb).
    exists a, b. repeat split; try assumption.
    now rewrite resolve_unfold, Hs. }
  split; [|split].
  - intros Hno. apply Hmal. apply count_contains in Hno. lia.
  - split; [exact Hmal|].
    intros Hres Hc. destruct (Hone Hc) as (a & b & _ & _ & _ & E).
    rewrite E in Hres.
    destruct (negb (Sqlite.within_limit (b ++ "%")) && domain_has_row a st);
      [discriminate|].
    destruct (find (row_matches a (b ++ "%")) st) as [r|]; [|discriminate].
    injection Hres as Hres.
    now apply (check_record_errors self now r).
  - exact Hone.
Qed.

Lemma resolve_malformed_address_witness :
  resolve_short_link (L := Toy.libs) Toy.self 0 "no-separator-string"
    Toy.store1
  = (Err MalformedAddressError, Toy.store1).
Proof.
  apply (proj1 (resolve_malformed_address (L := Toy.libs) Toy.self 0
                  "no-separator-string" Toy.store1)).
  reflexivity.
Defined.

(** Against C3 as stated: split on its first [/], this address is the domain
    [a.example] with the code [6b6b/6b]; [resolve_short_link] splits it in
    three and raises the malformed-address error. *)
Lemma resolve_split_first_counterexample :
  Spec.split_first "a.example/6b6b/6b" = Some ("a.example", "6b6b/6b")
  /\ Py.contains "/" "a.example/6b6b/6b" = true
  /\ Py.split "/" "a.example/6b6b/6b" = ["a.example"; "6b6b"; "6b"]
  /\ resolve_short_link (L := Toy.libs) Toy.self 0 "a.example/6b6b/6b"
       Toy.store1
     = (Err MalformedAddressError, Toy.store1).
Proof. repeat split. Qed.

Lemma lower_of_lower_hex (c : ascii) :
  Py.is_lower_hex c = true -> Py.lower c = c.
Proof.
  unfold Py.is_lower_hex. simpl. intros H.
  repeat (apply orb_true_iff in H; destruct H as [H|H];
          [apply Ascii.eqb_eq in H; subst c; reflexivity|]).
  discriminate.
Qed.

Lemma prefix_nocase_lower_hex (p s : string) :
  Py.forallb_str Py.is_lower_hex p = true ->
  Py.forallb_str Py.is_lower_hex s = true ->
  Sqlite.prefix_nocase p s = String.prefix p s.
Proof.
  revert s. induction p as [|a p IH]; intros s Hp Hs.
  - simpl. now rewrite prefix_empty.
  - destruct s as [|c s]; [reflexivity|].
    simpl in Hp, Hs. apply andb_true_iff in Hp, Hs.
    destruct Hp as [Ha Hp], Hs as [Hc Hs]. simpl.
    rewrite (lower_of_lower_hex _ Ha), (lower_of_lower_hex _ Hc), IH by auto.
    destruct (ascii_dec a c) as [->|Hac].
    + now rewrite Ascii.eqb_refl.
    + apply Ascii.eqb_neq in Hac. now rewrite Hac.
Qed.

(** C4 (as amended).  For an address [domain/code] whose code holds no
    [%], no [_] and no NUL, and whose pattern [code%] has at most 50000
    bytes, the rows that qualify are those whose domain is equal to
    [domain] and whose stored code, read up to its first NUL if it has one,
    starts with [code], upper and lower case ASCII letters being taken as
    equal; on lowercase hexadecimal digits against a stored code of
    lowercase hexadecimal digits that is the plain prefix test.  The oldest
    row that qualifies is the one checked, the others are not looked at;
    with none the call raises the not-found error. *)
Theorem resolve_lookup `{L : Libs} (self : ShortLinkSystem)
    (now : datetime) (short_url domain short_code : string) (st : store) :
  Py.split "/" short_url = [domain; short_code] ->
  Py.forallb_str Sqlite.is_literal short_code = true ->
  (Sqlite.utf8_bytes (short_code ++ "%") <= 50000)%N ->
  (forall pre record post,
      st = (pre ++ record :: post)%list ->
      (forall x, In x pre ->
         String.eqb (Row.domain x) domain
         && Sqlite.prefix_nocase short_code
              (Sqlite.until_nul (Row.short_code x)) = false) ->
      String.eqb (Row.domain record) domain
      && Sqlite.prefix_nocase short_code
           (Sqlite.until_nul (Row.short_code record)) = true ->
      resolve_short_link self now short_url st
      = (check_record self now record, st))
  /\ ((forall x, In x st ->
         String.eqb (Row.domain x) domain
         && Sqlite.prefix_nocase short_code
              (Sqlite.until_nul (Row.short_code x)) = false) <->
      resolve_short_link self now short_url st = (Err NotFoundError, st))
  /\ (Py.forallb_str Py.is_lower_hex short_code = true ->
      forall stored,
        Py.forallb_str Py.is_lower_hex stored = true ->
        Sqlite.prefix_nocase short_code (Sqlite.until_nul stored)
        = String.prefix short_code stored).
Proof.
  intros Hs Hw Hbytes.
  assert (Hl : Sqlite.within_limit (short_code ++ "%") = true)
    by (unfold Sqlite.within_limit; now apply N.leb_le).
  assert (Hm : forall x,
    row_matches domain (short_code ++ "%") x
    = String.eqb (Row.domain x) domain
      && Sqlite.prefix_nocase short_code
           (Sqlite.until_nul (Row.short_code x))).
  { intros x. unfold row_matches. now rewrite like_code_percent. }
  split; [|split].
  - intros pre record post -> Hpre Hrec.
    apply (resolve_found self now short_url domain short_code); [exact Hs|].
    apply find_first.
    + intros x Hx. rewrite Hm. now apply Hpre.
    + now rewrite Hm.
  - rewrite (resolve_within self now short_url domain short_code st Hs Hl).
    assert (Hn : (forall x, In x st ->
                    String.eqb (Row.domain x) domain
                    && Sqlite.prefix_nocase short_code
                         (Sqlite.until_nul (Row.short_code x))
                    = false)
                 <-> find (row_matches domain (short_code ++ "%")) st = None).
    { rewrite find_none_iff. split; intros H x Hx.
      - rewrite Hm. now apply H.
      - rewrite <- Hm. now apply H. }
    rewrite Hn.
    destruct (find (row_matches domain (short_code ++ "%")) st) as [r|].
    + split; [discriminate|]. intros H. exfalso.
      assert (H' : check_record self now r = Err NotFoundError)
        by congruence.
      now apply (check_record_errors self now r) in H'.
    + split; reflexivity.
  - intros Hc stored Hst. rewrite (until_nul_lower_hex stored Hst).
    now apply prefix_nocase_lower_hex.
Qed.

Lemma resolve_lookup_witness :
  resolve_short_link (L := Toy.libs) Toy.self 0 "unknown.example/00000000"
    Toy.store1
  = (Err NotFoundError, Toy.store1).
Proof.
  apply (proj1 (proj1 (proj2
    (resolve_lookup (L := Toy.libs) Toy.self 0 "unknown.example/00000000"
       "unknown.example" "00000000" Toy.store1 eq_refl eq_refl
       ltac:(vm_compute; discriminate))))).
  intros x [<-|[]]. reflexivity.
Defined.

(** Against C4 as stated: [6B6B] is no prefix of the stored code
    [6b6b6b6b37353331], so no row qualifies by prefix, yet the address
    resolves, [B] being taken as [b]; and so does [____], of which every
    character stands for any character. *)
Lemma resolve_lookup_not_prefix_counterexample :
  find (Spec.prefix_matches "a.example" "6B6B") Toy.store1 = None
  /\ resolve_short_link (L := Toy.libs) Toy.self 0 "a.example/6B6B"
       Toy.store1
     = (Ok Toy.url1, Toy.store1)
  /\ find (Spec.prefix_matches "a.example" "____") Toy.store1 = None
  /\ resolve_short_link (L := Toy.libs) Toy.self 0 "a.example/____"
       Toy.store1
     = (Ok Toy.url1, Toy.store1).
Proof. repeat split. Qed.

(** ** Creation *)

Lemma generate_short_link_unfold `{L : Libs} (self : ShortLinkSystem)
    (d : draws) (long_url : string) (valid_hours : Z) (user : option string)
    (st : store) :
  generate_short_link self d long_url valid_hours user st
  = match sm2_encrypt (sm2_public_key self) (random_k d)
            (_generate_sm4_key (uuid_key d)) with
    | None => (Err UncaughtError, st)
    | Some encrypted_key =>
        if id_taken (uuid_id d) st then (Err UncaughtError, st)
        else (Ok (extract_domain long_url ++ "/"
                  ++ Py.take 8 (Py.hex encrypted_key)),
              (st ++ [inserted_row self d long_url valid_hours user
                        encrypted_key])%list)
    end.
Proof.
  unfold generate_short_link.
  destruct (sm2_encrypt _ _ _) as [w|]; [|reflexivity].
  unfold bind, insert. cbn [Row.id].
  destruct (id_taken (uuid_id d) st); reflexivity.
Qed.

Lemma extract_domain_no_slash `{L : Libs} (long_url : string) :
  Py.contains "/" (extract_domain long_url) = false.
Proof.
  unfold extract_domain.
  destruct (nth_error (Py.split "//" long_url) 1);
    apply (split_char_hd "/").
Qed.

Lemma take_length (n : nat) (s : string) :
  n <= String.length s -> String.length (Py.take n s) = n.
Proof.
  revert s. induction n as [|n IH]; intros [|c s]; simpl; try lia.
  intros H. rewrite IH; lia.
Qed.

Lemma hex_length (b : bytes) : String.length (Py.hex b) = 2 * List.length b.
Proof. induction b as [|x b IH]; simpl; lia. Qed.

(** C6.  A successful [generate_short_link] returns the domain taken from
    the URL, a [/], and the first eight characters of the hexadecimal form
    of the wrapped key, which is the code stored in the new row; those
    characters are lowercase hexadecimal digits, and there are eight of them
    as soon as the wrapped key has four bytes. *)
Theorem short_address_format `{L : Libs} (self : ShortLinkSystem)
    (d : draws) (long_url : string) (valid_hours : Z) (user : option string)
    (st st' : store) (short_link : string) :
  generate_short_link self d long_url valid_hours user st
  = (Ok short_link, st') ->
  exists encrypted_key record,
    sm2_encrypt (sm2_public_key self) (random_k d)
      (_generate_sm4_key (uuid_key d)) = Some encrypted_key
    /\ st' = (st ++ [record])%list
    /\ Row.domain record = extract_domain long_url
    /\ Row.short_code record = Py.hex encrypted_key
    /\ short_link
       = extract_domain long_url ++ "/" ++ Py.take 8 (Py.hex encrypted_key)
    /\ Py.contains "/" (extract_domain long_url) = false
    /\ Py.forallb_str Py.is_lower_hex (Py.take 8 (Py.hex encrypted_key)) = true
    /\ (4 <= List.length encrypted_key ->
        String.length (Py.take 8 (Py.hex encrypted_key)) = 8).
Proof.
  rewrite generate_short_link_unfold.
  destruct (sm2_encrypt _ _ _) as [w|]; [|discriminate].
  destruct (id_taken (uuid_id d) st); [discriminate|].
  intros H. injection H as <- <-.
  exists w, (inserted_row self d long_url valid_hours user w).
  repeat split.
  - apply extract_domain_no_slash.
  - apply forallb_str_take, hex_lower.
  - intros Hlen. apply take_length. rewrite hex_length. lia.
Qed.

Lemma short_address_format_witness :
  exists encrypted_key record,
    sm2_encrypt (Libs := Toy.libs) (sm2_public_key Toy.self)
      (random_k Toy.draws1)
      (_generate_sm4_key (L := Toy.libs) (uuid_key Toy.draws1))
    = Some encrypted_key
    /\ Toy.store1 = ([] ++ [record])%list
    /\ Row.domain record = extract_domain Toy.url1
    /\ Row.short_code record = Py.hex encrypted_key
    /\ Toy.address1
       = extract_domain Toy.url1 ++ "/" ++ Py.take 8 (Py.hex encrypted_key)
    /\ Py.contains "/" (extract_domain Toy.url1) = false
    /\ Py.forallb_str Py.is_lower_hex (Py.take 8 (Py.hex encrypted_key)) = true
    /\ (4 <= List.length encrypted_key ->
        String.length (Py.take 8 (Py.hex encrypted_key)) = 8).
Proof.
  apply (short_address_format (L := Toy.libs) Toy.self Toy.draws1 Toy.url1 1
           (Some "alice") [] Toy.store1 Toy.address1).
  reflexivity.
Defined.

(** ** The table under the two operations *)

(** C9.  [generate_short_link] either appends one row to the table, with a
    use count of zero, and leaves every row that was there as it was, or
    fails and leaves the table as it was; [resolve_short_link] leaves the
    table as it was, whatever it returns: no row is changed or deleted, and
    no use count moves. *)
Theorem table_frame `{L : Libs} (self : ShortLinkSystem) :
  (forall d long_url valid_hours user st,
      match generate_short_link self d long_url valid_hours user st with
      | (Ok _, st') =>
          exists record,
            st' = (st ++ [record])%list /\ Row.user_times record = 0%Z
      | (Err _, st') => st' = st
      end)
  /\ (forall now short_url st,
         snd (resolve_short_link self now short_url st) = st).
Proof.
  split.
  - intros d long_url valid_hours user st.
    rewrite generate_short_link_unfold.
    destruct (sm2_encrypt _ _ _) as [w|]; [|reflexivity].
    destruct (id_taken (uuid_id d) st); [reflexivity|].
    eexists. split; reflexivity.
  - intros now short_url st. rewrite resolve_unfold.
    destruct (Py.split "/" short_url) as [|a [|b [|c l]]]; try reflexivity.
    destruct (negb (Sqlite.within_limit (b ++ "%")) && domain_has_row a st);
      [reflexivity|].
    destruct (find _ st); reflexivity.
Qed.

(** ** The columns resolution reads *)

Lemma find_same_but_keys (p : Row.t -> bool) (st1 st2 : store) :
  (forall r1 r2, Row.same_but_keys r1 r2 -> p r1 = p r2) ->
  Forall2 Row.same_but_keys st1 st2 ->
  match find p st1, find p st2 with
  | Some r1, Some r2 => Row.same_but_keys r1 r2
  | None, None => True
  | _, _ => False
  end.
Proof.
  intros Hp. induction 1 as [|r1 r2 st1 st2 Hr Hst IH]; simpl; [exact I|].
  rewrite <- (Hp r1 r2 Hr). destruct (p r1); assumption.
Qed.

Lemma check_record_same_but_keys `{L : Libs} (self : ShortLinkSystem)
    (now : datetime) (r1 r2 : Row.t) :
  Row.same_but_keys r1 r2 ->
  check_record self now r1 = check_record self now r2.
Proof.
  destruct r1, r2. unfold Row.same_but_keys. simpl.
  intros (? & ? & ? & ? & ? & ? & ? & ? & ? & ?). subst.
  reflexivity.
Qed.

Lemma domain_has_row_same_but_keys (domain : string) (st1 st2 : store) :
  Forall2 Row.same_but_keys st1 st2 ->
  domain_has_row domain st1 = domain_has_row domain st2.
Proof.
  unfold domain_has_row.
  induction 1 as [|r1 r2 st1 st2 Hr Hst IH]; cbn [existsb]; [reflexivity|].
  destruct Hr as (_ & Hd & _). now rewrite Hd, IH.
Qed.

(** C10.  Two tables whose rows differ at most in the columns [domainKey],
    [publicKey] and [privateKey] give the same outcome to every
    [resolve_short_link]: the same URL or the same error. *)
Theorem resolve_ignores_stored_keys `{L : Libs} (self : ShortLinkSystem)
    (now : datetime) (short_url : string) (st1 st2 : store) :
  Forall2 Row.same_but_keys st1 st2 ->
  fst (resolve_short_link self now short_url st1)
  = fst (resolve_short_link self now short_url st2).
Proof.
  intros Hst. rewrite !resolve_unfold.
  destruct (Py.split "/" short_url) as [|a [|b [|c l]]]; try reflexivity.
  rewrite (domain_has_row_same_but_keys a st1 st2 Hst).
  destruct (negb (Sqlite.within_limit (b ++ "%")) && domain_has_row a st2);
    [reflexivity|].
  pose proof (find_same_but_keys (row_matches a (b ++ "%")) st1 st2) as Hf.
  destruct (find (row_matches a (b ++ "%")) st1) as [r1|],
           (find (row_matches a (b ++ "%")) st2) as [r2|];
    try (exfalso; apply Hf; [|exact Hst]);
    try reflexivity.
  - simpl. apply check_record_same_but_keys. apply Hf; [|exact Hst].
    intros x y (_ & Hd & _ & Hc & _). unfold row_matches. now rewrite Hd, Hc.
  - intros x y (_ & Hd & _ & Hc & _). unfold row_matches. now rewrite Hd, Hc.
  - intros x y (_ & Hd & _ & Hc & _). unfold row_matches. now rewrite Hd, Hc.
Qed.

Lemma resolve_ignores_stored_keys_witness :
  fst (resolve_short_link (L := Toy.libs) Toy.self 0 Toy.address1
         [Toy.row1])
  = fst (resolve_short_link (L := Toy.libs) Toy.self 0 Toy.address1
           [Toy.row1_rekeyed]).
Proof.
  apply (resolve_ignores_stored_keys (L := Toy.libs)).
  constructor; [|constructor].
  repeat split.
Defined.

(** ** The signature check *)

Lemma unwrap_key_some `{L : Libs} (self : ShortLinkSystem) (record : Row.t)
    (key : bytes) :
  unwrap_key self record = Some (Some key) <->
  exists encrypted_key,
    Py.fromhex (Row.short_code record) = Some encrypted_key
    /\ sm2_decrypt (sm2_private_key self) encrypted_key = Some (Some key).
Proof.
  unfold unwrap_key. split.
  - destruct (Py.fromhex (Row.short_code record)) as [w|]; [|discriminate].
    intros H. exists w. split; [reflexivity | exact H].
  - intros (w & -> & H). exact H.
Qed.

Lemma decrypt_content_some `{L : Libs} (record : Row.t) (key : bytes)
    (s : string) :
  decrypt_content record (Some key) = Some s <->
  exists encrypted_content plain,
    Py.fromhex (Row.content record) = Some encrypted_content
    /\ sm4_decrypt_ecb key encrypted_content = Some plain
    /\ bytes_decode plain = Some s.
Proof.
  unfold decrypt_content, _sm4_decrypt. split.
  - destruct (Py.fromhex (Row.content record)) as [c|]; [|discriminate].
    destruct (sm4_decrypt_ecb key c) as [b|] eqn:Hb; [|discriminate].
    intros H. exists c, b. repeat split; assumption.
  - intros (c & b & -> & -> & H). exact H.
Qed.

Lemma generate_sign_params `{L : Libs} (domain content create_time : string)
    (key : bytes) :
  _generate_sign (sign_params domain content create_time key)
  = md5_hexdigest
      (str_encode
         ("content" ++ content ++ "createTime" ++ create_time
          ++ "domain" ++ domain ++ "domainKey" ++ Py.hex key)).
Proof. unfold _generate_sign. now rewrite sign_str_params. Qed.

(** The outcomes that come from the checks on a fetched row. *)
Lemma resolve_outcome_of_row `{L : Libs} (self : ShortLinkSystem)
    (now : datetime) (short_url : string) (st : store) (out : result string) :
  out <> Err MalformedAddressError -> out <> Err NotFoundError ->
  out <> Err UncaughtError ->
  resolve_short_link self now short_url st = (out, st) <->
  exists domain short_code record,
    Py.split "/" short_url = [domain; short_code]
    /\ find (row_matches domain (short_code ++ "%")) st = Some record
    /\ check_record self now record = out.
Proof.
  intros Hm Hn Hu. split.
  - rewrite resolve_unfold.
    destruct (Py.split "/" short_url) as [|a [|b [|c l]]];
      try (intros H; exfalso; apply Hm; congruence).
    destruct (negb (Sqlite.within_limit (b ++ "%")) && domain_has_row a st);
      [intros H; exfalso; apply Hu; congruence|].
    destruct (find (row_matches a (b ++ "%")) st) as [r|] eqn:Hf;
      [|intros H; exfalso; apply Hn; congruence].
    intros H. exists a, b, r. repeat split; congruence.
  - intros (a & b & r & Hs & Hf & <-).
    now apply (resolve_found self now short_url a b).
Qed.

(** C7.  [resolve_short_link] returns a URL exactly when the row it fetched
    is not expired, the stored code decodes to bytes that the private key of
    the instance unwraps to a key, the stored content decodes to bytes that
    SM4 decrypts under that key to the encoding of the URL, and the MD5
    digest of the text made of [content], the URL, [createTime], the stored
    creation time, [domain], the stored domain, [domainKey] and the key in
    hexadecimal is the stored signature; it raises the integrity error
    exactly when all of this holds but the digest is not the stored
    signature.  The signed content is the decrypted text and the signed key
    the unwrapped one, not the columns that hold them encrypted. *)
Theorem resolve_signature_inputs `{L : Libs} (self : ShortLinkSystem)
    (now : datetime) (short_url : string) (st : store) :
  (forall s,
     resolve_short_link self now short_url st = (Ok s, st) <->
     exists domain short_code record useful_time encrypted_key key
            encrypted_content plain,
       Py.split "/" short_url = [domain; short_code]
       /\ find (row_matches domain (short_code ++ "%")) st = Some record
       /\ strptime (hd "" (Py.split "." (Row.useful_time record)))
          = Some useful_time
       /\ (now <= useful_time)%Z
       /\ Py.fromhex (Row.short_code record) = Some encrypted_key
       /\ sm2_decrypt (sm2_private_key self) encrypted_key = Some (Some key)
       /\ Py.fromhex (Row.content record) = Some encrypted_content
       /\ sm4_decrypt_ecb key encrypted_content = Some plain
       /\ bytes_decode plain = Some s
       /\ md5_hexdigest
            (str_encode
               ("content" ++ s ++ "createTime" ++ Row.create_time record
                ++ "domain" ++ Row.domain record
                ++ "domainKey" ++ Py.hex key))
          = Row.sign record)
  /\ (resolve_short_link self now short_url st = (Err IntegrityError, st) <->
      exists domain short_code record useful_time encrypted_key key
             encrypted_content plain s,
        Py.split "/" short_url = [domain; short_code]
        /\ find (row_matches domain (short_code ++ "%")) st = Some record
        /\ strptime (hd "" (Py.split "." (Row.useful_time record)))
           = Some useful_time
        /\ (now <= useful_time)%Z
        /\ Py.fromhex (Row.short_code record) = Some encrypted_key
        /\ sm2_decrypt (sm2_private_key self) encrypted_key = Some (Some key)
        /\ Py.fromhex (Row.content record) = Some encrypted_content
        /\ sm4_decrypt_ecb key encrypted_content = Some plain
        /\ bytes_decode plain = Some s
        /\ md5_hexdigest
             (str_encode
                ("content" ++ s ++ "createTime" ++ Row.create_time record
                 ++ "domain" ++ Row.domain record
                 ++ "domainKey" ++ Py.hex key))
           <> Row.sign record).
Proof.
  split; [intros s|];
    (rewrite resolve_outcome_of_row by discriminate); split.
  - intros (a & b & r & Hs & Hf & H). apply check_record_ok in H.
    destruct H as (e & k & Hp & Hle & Hk & Hdec & Hsign).
    apply unwrap_key_some in Hk. destruct Hk as (w & Hw & Hk).
    apply decrypt_content_some in Hdec.
    destruct Hdec as (c & plain & Hc & Hplain & Hdecode).
    rewrite generate_sign_params in Hsign.
    exists a, b, r, e, w, k, c, plain. repeat split; assumption.
  - intros (a & b & r & e & w & k & c & plain
            & Hs & Hf & Hp & Hle & Hw & Hk & Hc & Hplain & Hdecode & Hsign).
    exists a, b, r. split; [exact Hs|]. split; [exact Hf|].
    apply check_record_ok. exists e, k.
    split; [exact Hp|]. split; [exact Hle|].
    split; [apply unwrap_key_some; now exists w|].
    split; [apply decrypt_content_some; now exists c, plain|].
    now rewrite generate_sign_params.
  - intros (a & b & r & Hs & Hf & H). apply check_record_integrity in H.
    destruct H as (e & k & s & Hp & Hle & Hk & Hdec & Hsign).
    apply unwrap_key_some in Hk. destruct Hk as (w & Hw & Hk).
    apply decrypt_content_some in Hdec.
    destruct Hdec as (c & plain & Hc & Hplain & Hdecode).
    rewrite generate_sign_params in Hsign.
    exists a, b, r, e, w, k, c, plain, s. repeat split; assumption.
  - intros (a & b & r & e & w & k & c & plain & s
            & Hs & Hf & Hp & Hle & Hw & Hk & Hc & Hplain & Hdecode & Hsign).
    exists a, b, r. split; [exact Hs|]. split; [exact Hf|].
    apply check_record_integrity. exists e, k, s.
    split; [exact Hp|]. split; [exact Hle|].
    split; [apply unwrap_key_some; now exists w|].
    split; [apply decrypt_content_some; now exists c, plain|].
    now rewrite generate_sign_params.
Qed.

(** The row of [url1] at second 0: its content column is the ciphertext in
    hexadecimal, and what is signed and returned is the URL it decrypts
    to. *)
Lemma resolve_signature_inputs_witness :
  Row.content Toy.row1 = "313d713f702f656c706d6178652e612f2f3a7370747468"
  /\ resolve_short_link (L := Toy.libs) Toy.self 0 Toy.address1 Toy.store1
     = (Ok Toy.url1, Toy.store1).
Proof.
  split; [reflexivity|].
  apply (proj2 (proj1 (resolve_signature_inputs (L := Toy.libs) Toy.self 0
                         Toy.address1 Toy.store1) Toy.url1)).
  exists "a.example", "6b6b6b6b", Toy.row1, 3700000000%Z, Toy.wrapped1,
    (_generate_sm4_key (L := Toy.libs) "u1"),
    (_sm4_encrypt (L := Toy.libs) Toy.url1
       (_generate_sm4_key (L := Toy.libs) "u1")),
    (str_encode (Libs := Toy.libs) Toy.url1).
  repeat split. vm_compute. discriminate.
Defined.

(** ** The small instance satisfies the laws *)

Lemma toy_uint_no_dot (u : Decimal.uint) :
  Py.contains "." (NilEmpty.string_of_uint u) = false.
Proof. induction u; simpl; auto. Qed.

Lemma toy_laws : LibLaws Toy.libs Toy.self.
Proof.
  constructor; simpl.
  - intros s. now rewrite string_of_list_byte_of_string.
  - intros _ b. now rewrite rev_involutive.
  - intros k b w H. injection H as <-.
    unfold Toy.pad4.
    destruct (list_byte_of_string k) as [|x0 [|x1 [|x2 [|x3 l]]]];
      reflexivity.
  - intros t. rewrite NilEmpty.isi, DecimalZ.of_to.
    unfold whole_second. f_equal.
    pose proof (Z.div_mod t 1000000). lia.
  - intros t. destruct (Z.to_int (t / 1000000)) as [u|u]; simpl.
    + apply toy_uint_no_dot.
    + apply toy_uint_no_dot.
Qed.

(** ** Expiry *)

Lemma inserted_row_expiry `{L : Libs} (self : ShortLinkSystem)
    (laws : LibLaws L self) (d : draws) (long_url : string) (valid_hours : Z)
    (user : option string) (encrypted_key : bytes) :
  parse_useful_time
    (inserted_row self d long_url valid_hours user encrypted_key)
  = Some (whole_second (now_expiry d + timedelta_hours valid_hours)).
Proof.
  unfold parse_useful_time, inserted_row. cbn [Row.useful_time].
  change "." with (String "." "").
  rewrite split_char_absent by apply (strftime_no_dot L self laws).
  apply (strptime_strftime L self laws).
Qed.

(** C2 (as amended).  For the row that [resolve_short_link] fetches, with
    the expiry its [useful_time] column parses to, the call raises the
    expired error exactly when the clock it reads is strictly after that
    expiry: at the expiry itself and before it, it does not.  For a row
    written by [generate_short_link] the expiry is the whole second of its
    second clock reading plus [valid_hours] hours. *)
Theorem resolve_expiry_boundary `{L : Libs} (self : ShortLinkSystem)
    (now : datetime) (short_url domain short_code : string) (st : store)
    (record : Row.t) (useful_time : datetime) :
  Py.split "/" short_url = [domain; short_code] ->
  find (row_matches domain (short_code ++ "%")) st = Some record ->
  parse_useful_time record = Some useful_time ->
  (resolve_short_link self now short_url st = (Err ExpiredError, st)
   <-> (useful_time < now)%Z)
  /\ (LibLaws L self ->
      forall d long_url valid_hours user encrypted_key,
        parse_useful_time
          (inserted_row self d long_url valid_hours user encrypted_key)
        = Some (whole_second (now_expiry d + timedelta_hours valid_hours))).
Proof.
  intros Hs Hf Hp. split.
  - rewrite (resolve_found self now short_url domain short_code st record
               Hs Hf).
    unfold check_record. rewrite Hp.
    destruct (Z.gtb_spec now useful_time) as [Hlt|Hle].
    + split; [intros _; exact Hlt | reflexivity].
    + split; [|lia].
      destruct (unwrap_key self record) as [k|]; [|discriminate].
      destruct (decrypt_content record k) as [s|]; [|discriminate].
      destruct k as [k|]; [|discriminate].
      destruct (String.eqb _ _); discriminate.
  - intros laws d long_url valid_hours user encrypted_key.
    now apply inserted_row_expiry.
Qed.

Lemma resolve_expiry_boundary_witness :
  resolve_short_link (L := Toy.libs) Toy.self 3700000001 Toy.address1
    Toy.store1
  = (Err ExpiredError, Toy.store1).
Proof.
  apply (proj1 (resolve_expiry_boundary (L := Toy.libs) Toy.self 3700000001
                  Toy.address1 "a.example" "6b6b6b6b" Toy.store1 Toy.row1
                  3700000000 eq_refl eq_refl eq_refl)).
  reflexivity.
Defined.

(** Against C2 as stated: [row1] was created at second 100 for one hour, its
    stored expiry is second 3700; resolved at that very time, its address
    gives the URL, not the expired error. *)
Lemma resolve_at_expiry_counterexample :
  parse_useful_time (L := Toy.libs) Toy.row1 = Some 3700000000%Z
  /\ (now_create Toy.draws1 + timedelta_hours 1 = 3700000000)%Z
  /\ resolve_short_link (L := Toy.libs) Toy.self 3700000000 Toy.address1
       Toy.store1
     = (Ok Toy.url1, Toy.store1).
Proof. repeat split. Qed.

(** ** Round trip *)

(** The new row passes every check until its expiry. *)
Lemma check_inserted_row `{L : Libs} (self : ShortLinkSystem)
    (laws : LibLaws L self) (d : draws) (long_url : string) (valid_hours : Z)
    (user : option string) (encrypted_key : bytes) (now : datetime) :
  sm2_encrypt (sm2_public_key self) (random_k d)
    (_generate_sm4_key (uuid_key d)) = Some encrypted_key ->
  (now <= whole_second (now_expiry d + timedelta_hours valid_hours))%Z ->
  check_record self now
    (inserted_row self d long_url valid_hours user encrypted_key)
  = Ok long_url.
Proof.
  intros Hw Hnow. apply check_record_ok.
  exists (whole_second (now_expiry d + timedelta_hours valid_hours)),
         (_generate_sm4_key (uuid_key d)).
  split; [now apply inserted_row_expiry|].
  split; [exact Hnow|].
  split.
  { unfold unwrap_key, inserted_row. cbn [Row.short_code].
    rewrite fromhex_hex.
    exact (sm2_decrypt_encrypt L self laws _ _ _ Hw). }
  split.
  { unfold decrypt_content, inserted_row, _sm4_decrypt, _sm4_encrypt.
    cbn [Row.content]. rewrite fromhex_hex.
    rewrite (sm4_decrypt_encrypt L self laws).
    apply (decode_encode L self laws). }
  reflexivity.
Qed.

(** The pattern of a returned address has nine characters. *)
Lemma short_pattern_within_limit (s : string) :
  Sqlite.within_limit (Py.take 8 s ++ "%") = true.
Proof.
  apply within_limit_short. rewrite append_length. cbn [String.length].
  pose proof (take_length_le 8 s). lia.
Qed.

(** The new row qualifies for the address that is returned. *)
Lemma inserted_row_matches `{L : Libs} (self : ShortLinkSystem) (d : draws)
    (long_url : string) (valid_hours : Z) (user : option string)
    (encrypted_key : bytes) :
  row_matches (extract_domain long_url)
    (Py.take 8 (Py.hex encrypted_key) ++ "%")
    (inserted_row self d long_url valid_hours user encrypted_key) = true.
Proof.
  unfold row_matches, inserted_row. cbn [Row.domain Row.short_code].
  rewrite String.eqb_refl, like_code_percent.
  - rewrite (until_nul_lower_hex _ (hex_lower encrypted_key)).
    destruct (take_append 8 (Py.hex encrypted_key)) as [rest E].
    rewrite E at 2. apply prefix_nocase_append.
  - eapply forallb_str_impl; [apply lower_hex_literal|].
    apply forallb_str_take, hex_lower.
  - apply short_pattern_within_limit.
Qed.

Lemma split_short_link `{L : Libs} (long_url : string)
    (encrypted_key : bytes) :
  Py.split "/"
    (extract_domain long_url ++ "/" ++ Py.take 8 (Py.hex encrypted_key))
  = [extract_domain long_url; Py.take 8 (Py.hex encrypted_key)].
Proof.
  change "/" with (String "/" "") at 1.
  change ("/" ++ Py.take 8 (Py.hex encrypted_key))
    with (String "/" (Py.take 8 (Py.hex encrypted_key))).
  rewrite split_char_append by apply extract_domain_no_slash.
  rewrite split_char_absent; [reflexivity|].
  apply (forallb_str_absent Py.is_lower_hex); [reflexivity|].
  apply forallb_str_take, hex_lower.
Qed.

(** An address of the form [generate_short_link] returns is looked up
    under a pattern the engine accepts. *)
Lemma resolve_returned_address `{L : Libs} (self : ShortLinkSystem)
    (now : datetime) (long_url : string) (encrypted_key : bytes)
    (st : store) :
  resolve_short_link self now
    (extract_domain long_url ++ "/" ++ Py.take 8 (Py.hex encrypted_key)) st
  = match find (row_matches (extract_domain long_url)
                  (Py.take 8 (Py.hex encrypted_key) ++ "%")) st with
    | Some record => (check_record self now record, st)
    | None => (Err NotFoundError, st)
    end.
Proof.
  apply resolve_within.
  - apply split_short_link.
  - apply short_pattern_within_limit.
Qed.

Lemma find_app_none (p : Row.t -> bool) (st : store) (r : Row.t) :
  find p st = None -> p r = true -> find p (st ++ [r])%list = Some r.
Proof.
  intros Hn Hr. apply find_first; [|exact Hr].
  now apply find_none_iff.
Qed.

(** C1 (as amended).  With libraries that satisfy [LibLaws], when
    [generate_short_link] succeeds on a URL with a positive number of hours,
    and the address it returns matched no row of the table before the call,
    then [resolve_short_link] on that address returns the URL, at every time
    up to the stored expiry; the time of creation is one of them. *)
Theorem round_trip `{L : Libs} (self : ShortLinkSystem)
    (d : draws) (long_url : string) (valid_hours : Z) (user : option string)
    (st st' : store) (short_link : string) :
  LibLaws L self ->
  (0 < valid_hours)%Z ->
  generate_short_link self d long_url valid_hours user st
  = (Ok short_link, st') ->
  resolve_short_link self (now_create d) short_link st
  = (Err NotFoundError, st) ->
  (forall now,
      (now <= whole_second (now_expiry d + timedelta_hours valid_hours))%Z ->
      resolve_short_link self now short_link st' = (Ok long_url, st'))
  /\ resolve_short_link self (now_expiry d) short_link st'
     = (Ok long_url, st').
Proof.
  intros laws Hh Hgen Hnew.
  rewrite generate_short_link_unfold in Hgen.
  destruct (sm2_encrypt _ _ _) as [w|] eqn:Hw; [|discriminate].
  destruct (id_taken (uuid_id d) st); [discriminate|].
  assert (E1 : short_link
               = extract_domain long_url ++ "/" ++ Py.take 8 (Py.hex w))
    by congruence.
  assert (E2 : st' = (st ++ [inserted_row self d long_url valid_hours
                               user w])%list)
    by congruence.
  subst short_link st'. clear Hgen.
  rewrite resolve_returned_address in Hnew.
  assert (Hnone : find (row_matches (extract_domain long_url)
                          (Py.take 8 (Py.hex w) ++ "%")) st = None).
  { destruct (find _ st) as [r|]; [|reflexivity].
    injection Hnew as Hnew.
    now apply (check_record_errors self (now_create d) r) in Hnew. }
  assert (Hall : forall now,
      (now <= whole_second (now_expiry d + timedelta_hours valid_hours))%Z ->
      resolve_short_link self now
        (extract_domain long_url ++ "/" ++ Py.take 8 (Py.hex w))
        (st ++ [inserted_row self d long_url valid_hours user w])%list
      = (Ok long_url,
         (st ++ [inserted_row self d long_url valid_hours user w])%list)).
  { intros now Hnow. rewrite resolve_returned_address.
    rewrite (find_app_none _ st _ Hnone
               (inserted_row_matches self d long_url valid_hours user w)).
    now rewrite (check_inserted_row self laws d long_url valid_hours user w
                   now Hw Hnow). }
  split; [exact Hall|].
  apply Hall. unfold whole_second, timedelta_hours.
  pose proof (Z.mod_pos_bound (now_expiry d + valid_hours * 3600 * 1000000)
                1000000 ltac:(lia)).
  lia.
Qed.

Lemma round_trip_witness :
  resolve_short_link (L := Toy.libs) Toy.self (now_expiry Toy.draws1)
    Toy.address1 Toy.store1
  = (Ok Toy.url1, Toy.store1).
Proof.
  apply (proj2 (round_trip (L := Toy.libs) Toy.self Toy.draws1 Toy.url1 1
                  (Some "alice") [] Toy.store1 Toy.address1
                  toy_laws eq_refl eq_refl eq_refl)).
Defined.

(** Against C1 as stated: [url2] is shortened after [url1], on the same
    domain and with a wrapped key that starts with the same four bytes.  The
    call succeeds and returns the address [url1] already has; resolved at
    once, that address gives [url1], the older row. *)
Lemma round_trip_collision_counterexample :
  (0 < 1)%Z
  /\ generate_short_link (L := Toy.libs) Toy.self Toy.draws2 Toy.url2 1 None
       Toy.store1
     = (Ok Toy.address1, Toy.store2)
  /\ resolve_short_link (L := Toy.libs) Toy.self (now_expiry Toy.draws2)
       Toy.address1 Toy.store2
     = (Ok Toy.url1, Toy.store2)
  /\ Toy.url1 <> Toy.url2.
Proof. repeat split. discriminate. Qed.

(** ** The signed string determines the signed fields *)

Lemma append_cancel_l (a b c : string) : a ++ b = a ++ c -> b = c.
Proof.
  induction a as [|x a IH]; simpl; [auto|].
  intros H. injection H as H. auto.
Qed.

Lemma append_cancel_r (a b c : string) : a ++ c = b ++ c -> a = b.
Proof.
  revert b. induction a as [|x a IH]; intros [|y b] H; simpl in H.
  - reflexivity.
  - apply (f_equal String.length) in H. simpl in H.
    rewrite append_length in H. lia.
  - apply (f_equal String.length) in H. simpl in H.
    rewrite append_length in H. lia.
  - injection H as -> H. f_equal. now apply IH.
Qed.

Lemma hex_tail_all (h : string) :
  Py.forallb_str Py.is_lower_hex h = true -> hex_tail h = h.
Proof.
  destruct h as [|c h]; [reflexivity|].
  intros H. cbn [hex_tail]. now rewrite H.
Qed.

(** After a character that is no hexadecimal digit, followed by digits only,
    the tail is those digits. *)
Lemma hex_tail_append (a : string) (y : ascii) (h : string) :
  Py.is_lower_hex y = false ->
  Py.forallb_str Py.is_lower_hex h = true ->
  hex_tail (a ++ String y h) = h.
Proof.
  intros Hy Hh. induction a as [|x a IH].
  - cbn [String.append hex_tail Py.forallb_str].
    rewrite Hy. cbn [andb]. now apply hex_tail_all.
  - cbn [String.append hex_tail].
    replace (Py.forallb_str Py.is_lower_hex (String x (a ++ String y h)))
      with false; [exact IH|].
    cbn [Py.forallb_str]. rewrite forallb_str_append.
    cbn [Py.forallb_str]. rewrite Hy.
    now rewrite andb_false_r, andb_false_r.
Qed.

Lemma hex_injective (a b : bytes) : Py.hex a = Py.hex b -> a = b.
Proof.
  intros H. apply (f_equal Py.fromhex) in H.
  rewrite !fromhex_hex in H. now injection H.
Qed.

(** Same domain and creation time: the signed string gives back the content
    and the key. *)
Lemma sign_str_content_key `{L : Libs} (domain create_time : string)
    (s s' : string) (k k' : bytes) :
  sign_str (sign_params domain s create_time k)
  = sign_str (sign_params domain s' create_time k') ->
  s = s' /\ k = k'.
Proof.
  rewrite !sign_str_params. intros H.
  apply (append_cancel_l "content") in H.
  assert (Hshape : forall (c : string) (key : bytes),
    c ++ "createTime" ++ create_time ++ "domain" ++ domain ++ "domainKey"
      ++ Py.hex key
    = (c ++ "createTime" ++ create_time ++ "domain" ++ domain ++ "domainKe")
      ++ String "y" (Py.hex key)).
  { intros c key. rewrite !append_assoc. reflexivity. }
  assert (Hk : Py.hex k = Py.hex k').
  { pose proof (f_equal hex_tail H) as Ht.
    rewrite (Hshape s k), (Hshape s' k') in Ht.
    rewrite !hex_tail_append in Ht by (reflexivity || apply hex_lower).
    exact Ht. }
  split; [|now apply hex_injective].
  rewrite Hk in H.
  change (?a ++ "createTime" ++ ?r) with (a ++ ("createTime" ++ r)) in H.
  now apply append_cancel_r in H.
Qed.

(** Same domain, content and key: the signed string gives back the creation
    time. *)
Lemma sign_str_create_time `{L : Libs} (domain s : string) (t t' : string)
    (k : bytes) :
  sign_str (sign_params domain s t k) = sign_str (sign_params domain s t' k) ->
  t = t'.
Proof.
  rewrite !sign_str_params. intros H.
  apply (append_cancel_l "content") in H.
  apply append_cancel_l in H.
  apply (append_cancel_l "createTime") in H.
  now apply append_cancel_r in H.
Qed.

(** ** Rows changed behind the service *)

Section Tamper.

Context {L : Libs}.
Variable self : ShortLinkSystem.

(** The checks on a row that is not expired and whose key unwraps. *)
Lemma check_record_unwrapped (now : datetime) (record : Row.t)
    (useful_time : datetime) (key : bytes) :
  parse_useful_time record = Some useful_time ->
  (now <= useful_time)%Z ->
  unwrap_key self record = Some (Some key) ->
  check_record self now record
  = match decrypt_content record (Some key) with
    | Some s =>
        if String.eqb
             (_generate_sign
                (sign_params (Row.domain record) s
                   (Row.create_time record) key))
             (Row.sign record)
        then Ok s else Err IntegrityError
    | None => Err SymmetricDecryptError
    end.
Proof.
  intros Hp Hle Hk. unfold check_record. rewrite Hp, Hk.
  destruct (Z.gtb_spec now useful_time) as [Hlt|_]; [lia|].
  reflexivity.
Qed.

(** The string [_generate_sign] hashes for the four fields. *)
Lemma generate_sign_signed_string (domain content create_time : string)
    (key : bytes) :
  _generate_sign (sign_params domain content create_time key)
  = md5_hexdigest (str_encode (signed_string domain content create_time key)).
Proof. unfold _generate_sign. now rewrite sign_str_params. Qed.

Lemma signed_string_content_key (domain create_time s s' : string)
    (k k' : bytes) :
  signed_string domain s create_time k = signed_string domain s' create_time k'
  -> s = s' /\ k = k'.
Proof.
  intros H. apply (sign_str_content_key domain create_time).
  now rewrite !sign_str_params.
Qed.

Lemma signed_string_create_time (domain s t t' : string) (k : bytes) :
  signed_string domain s t k = signed_string domain s t' k -> t = t'.
Proof.
  intros H. apply (sign_str_create_time domain s t t' k).
  now rewrite !sign_str_params.
Qed.

(** A row that checked out, with its content or its wrapped key replaced:
    whatever now unwraps and decrypts, a URL other than the one the row
    gave is returned only when its signed string and the one of the row
    have one digest. *)
Lemma check_record_same_signature (now : datetime) (r r' : Row.t)
    (s : string) (key : bytes) :
  check_record self now r = Ok s ->
  unwrap_key self r = Some (Some key) ->
  Row.domain r' = Row.domain r ->
  Row.useful_time r' = Row.useful_time r ->
  Row.create_time r' = Row.create_time r ->
  Row.sign r' = Row.sign r ->
  check_record self now r' = Err AsymmetricDecryptError
  \/ check_record self now r' = Err SymmetricDecryptError
  \/ check_record self now r' = Err IntegrityError
  \/ check_record self now r' = Ok s
  \/ exists s' key',
       unwrap_key self r' = Some (Some key')
       /\ s' <> s
       /\ check_record self now r' = Ok s'
       /\ digests_collide
            (signed_string (Row.domain r) s' (Row.create_time r) key')
            (signed_string (Row.domain r) s (Row.create_time r) key).
Proof.
  intros Hok Hkey Hd Hu Hc Hs.
  apply check_record_ok in Hok.
  destruct Hok as (e & k & Hp & Hle & Hk & Hdec & Hsign).
  assert (k = key) by congruence. subst k.
  assert (Hp' : parse_useful_time r' = Some e)
    by (unfold parse_useful_time in *; now rewrite Hu).
  destruct (unwrap_key self r') as [[k'|]|] eqn:Hk'.
  - rewrite (check_record_unwrapped now r' e k' Hp' Hle Hk').
    destruct (decrypt_content r' (Some k')) as [s'|]; [|auto].
    rewrite Hd, Hc, Hs.
    destruct (String.eqb_spec
                (_generate_sign
                   (sign_params (Row.domain r) s' (Row.create_time r) k'))
                (Row.sign r)) as [E|N]; [|auto].
    destruct (string_dec s' s) as [->|Hne]; [auto 6|].
    do 4 right. exists s', k'.
    split; [reflexivity|]. split; [exact Hne|]. split; [reflexivity|].
    split.
    + intros Heq. apply signed_string_content_key in Heq. tauto.
    + rewrite <- !generate_sign_signed_string. congruence.
  - right. left. unfold check_record. rewrite Hp', Hk'.
    destruct (Z.gtb_spec now e) as [Hlt|_]; [lia|].
    unfold decrypt_content, _sm4_decrypt.
    destruct (Py.fromhex (Row.content r')); reflexivity.
  - left. unfold check_record. rewrite Hp', Hk'.
    destruct (Z.gtb_spec now e) as [Hlt|_]; [lia|]. reflexivity.
Qed.

End Tamper.

(** C8 (as amended).  Take a row that [resolve_short_link] fetches for an
    address and resolves to a URL, and overwrite one of its columns.
    - [sign], with another value: the integrity error.
    - [create_time], with another value: the integrity error, unless the
      signed string with the new creation time and the one with the old
      have one MD5 digest; then the URL is returned as before.
    - [content]: the symmetric-decrypt error, the integrity error or the
      same URL; another URL only when its signed string and the one of the
      original URL have one MD5 digest.
    - [short_code], the row still qualifying for the address: the
      asymmetric-decrypt error, the symmetric-decrypt error, the integrity
      error or the same URL; another URL only when its signed string, with
      the key that now unwraps, and the one of the original URL and key
      have one MD5 digest.  The row no longer qualifying and no later row
      qualifying: the not-found error.
    - [domainKey]: the same URL; the column is not read. *)
Theorem tamper_detection `{L : Libs} (self : ShortLinkSystem)
    (now : datetime) (short_url domain short_code : string)
    (pre post : store) (record : Row.t) (s : string) :
  Py.split "/" short_url = [domain; short_code] ->
  (forall x, In x pre -> row_matches domain (short_code ++ "%") x = false) ->
  row_matches domain (short_code ++ "%") record = true ->
  fst (resolve_short_link self now short_url (pre ++ record :: post)%list)
  = Ok s ->
  let resolve_with (r : Row.t) :=
    fst (resolve_short_link self now short_url (pre ++ r :: post)%list) in
  let signed (content create_time : string) (key : bytes) :=
    signed_string (Row.domain record) content create_time key in
  exists key,
    unwrap_key self record = Some (Some key)
    /\ (forall v, v <> Row.sign record ->
          resolve_with (Row.set_sign v record) = Err IntegrityError)
    /\ (forall v, v <> Row.create_time record ->
          resolve_with (Row.set_create_time v record) = Err IntegrityError
          \/ (resolve_with (Row.set_create_time v record) = Ok s
              /\ digests_collide (signed s v key)
                   (signed s (Row.create_time record) key)))
    /\ (forall v,
          resolve_with (Row.set_content v record) = Err SymmetricDecryptError
          \/ resolve_with (Row.set_content v record) = Err IntegrityError
          \/ resolve_with (Row.set_content v record) = Ok s
          \/ exists s',
               s' <> s
               /\ resolve_with (Row.set_content v record) = Ok s'
               /\ digests_collide
                    (signed s' (Row.create_time record) key)
                    (signed s (Row.create_time record) key))
    /\ (forall v,
          row_matches domain (short_code ++ "%")
            (Row.set_short_code v record) = true ->
          resolve_with (Row.set_short_code v record)
          = Err AsymmetricDecryptError
          \/ resolve_with (Row.set_short_code v record)
             = Err SymmetricDecryptError
          \/ resolve_with (Row.set_short_code v record) = Err IntegrityError
          \/ resolve_with (Row.set_short_code v record) = Ok s
          \/ exists s' key',
               unwrap_key self (Row.set_short_code v record)
               = Some (Some key')
               /\ s' <> s
               /\ resolve_with (Row.set_short_code v record) = Ok s'
               /\ digests_collide
                    (signed s' (Row.create_time record) key')
                    (signed s (Row.create_time record) key))
    /\ (forall v,
          row_matches domain (short_code ++ "%")
            (Row.set_short_code v record) = false ->
          (forall x, In x post ->
             row_matches domain (short_code ++ "%") x = false) ->
          resolve_with (Row.set_short_code v record) = Err NotFoundError)
    /\ (forall v, resolve_with (Row.set_domainKey v record) = Ok s).
Proof.
  intros Hs Hpre Hrec Hres resolve_with signed.
  assert (Hfetch : forall r,
    row_matches domain (short_code ++ "%") r = true ->
    resolve_with r = check_record self now r).
  { intros r Hr. unfold resolve_with.
    now rewrite (resolve_found self now short_url domain short_code
                   (pre ++ r :: post)%list r Hs
                   (find_first _ pre post r Hpre Hr)). }
  assert (Hok : check_record self now record = Ok s).
  { rewrite <- Hres. symmetry. exact (Hfetch record Hrec). }
  pose proof Hok as Hok'. apply check_record_ok in Hok'.
  destruct Hok' as (e & k & Hp & Hle & Hk & Hdec & Hsign).
  exists k. split; [exact Hk|].
  repeat apply conj.
  - intros v Hv. rewrite (Hfetch (Row.set_sign v record) Hrec).
    apply check_record_integrity. exists e, k, s.
    repeat split; try assumption.
    cbn [Row.sign Row.set_sign Row.domain Row.create_time].
    congruence.
  - intros v Hv. rewrite (Hfetch (Row.set_create_time v record) Hrec).
    rewrite (check_record_unwrapped self now
               (Row.set_create_time v record) e k Hp Hle Hk).
    change (decrypt_content (Row.set_create_time v record) (Some k))
      with (decrypt_content record (Some k)).
    rewrite Hdec.
    cbn [Row.sign Row.set_create_time Row.domain Row.create_time].
    destruct (String.eqb_spec
                (_generate_sign (sign_params (Row.domain record) s v k))
                (Row.sign record)) as [E|N]; [|now left].
    right. split; [reflexivity|]. split.
    + intros Heq. apply signed_string_create_time in Heq. contradiction.
    + unfold signed. rewrite <- !generate_sign_signed_string. congruence.
  - intros v. rewrite (Hfetch (Row.set_content v record) Hrec).
    destruct (check_record_same_signature self now record
                (Row.set_content v record) s k Hok Hk
                eq_refl eq_refl eq_refl eq_refl)
      as [H|[H|[H|[H|(s' & k' & Hk' & Hne & H & Hcol)]]]]; auto.
    + exfalso. unfold check_record in H.
      change (parse_useful_time (Row.set_content v record))
        with (parse_useful_time record) in H.
      change (unwrap_key self (Row.set_content v record))
        with (unwrap_key self record) in H.
      rewrite Hp, Hk in H.
      destruct (now >? e)%Z; [discriminate|].
      destruct (decrypt_content (Row.set_content v record) (Some k));
        [|discriminate].
      destruct (String.eqb _ _); discriminate.
    + change (unwrap_key self (Row.set_content v record))
        with (unwrap_key self record) in Hk'.
      assert (k' = k) by congruence. subst k'.
      do 3 right. exists s'. repeat split; try assumption; apply Hcol.
  - intros v Hv. rewrite (Hfetch _ Hv).
    destruct (check_record_same_signature self now record
                (Row.set_short_code v record) s k Hok Hk
                eq_refl eq_refl eq_refl eq_refl)
      as [H|[H|[H|[H|(s' & k' & Hk' & Hne & H & Hcol)]]]]; auto.
    do 4 right. exists s', k'. repeat split; try assumption; apply Hcol.
  - intros v Hv Hpost. unfold resolve_with.
    rewrite (resolve_within self now short_url domain short_code _ Hs).
    + replace (find (row_matches domain (short_code ++ "%"))
                 (pre ++ Row.set_short_code v record :: post)%list)
        with (@None Row.t); [reflexivity|].
      symmetry. apply find_none_iff. intros x Hx.
      apply in_app_or in Hx. destruct Hx as [Hx|[<-|Hx]]; auto.
    + unfold row_matches in Hrec. apply andb_true_iff in Hrec.
      destruct Hrec as [_ Hrec]. now apply like_within_limit in Hrec.
  - intros v. rewrite (Hfetch (Row.set_domainKey v record) Hrec). exact Hok.
Qed.

Lemma tamper_detection_witness :
  fst (resolve_short_link (L := Toy.libs) Toy.self 0 Toy.address1
         ([] ++ Row.set_sign "00" Toy.row1 :: [])%list)
  = Err IntegrityError.
Proof.
  destruct (tamper_detection (L := Toy.libs) Toy.self 0 Toy.address1
              "a.example" "6b6b6b6b" [] [] Toy.row1 Toy.url1
              eq_refl (fun x (H : In x []) => match H with end)
              eq_refl eq_refl)
    as (key & _ & Hsign & _).
  apply Hsign. intros H. vm_compute in H. discriminate H.
Defined.

(** Against C8 as stated: with its [domainKey] column overwritten, and with
    one digit of its [content] column turned to upper case, the row of
    [url1] still resolves to [url1]; no error is raised. *)
Lemma tamper_undetected_counterexample :
  Row.domainKey (Row.set_domainKey "00" Toy.row1) <> Row.domainKey Toy.row1
  /\ resolve_short_link (L := Toy.libs) Toy.self 0 Toy.address1
       [Row.set_domainKey "00" Toy.row1]
     = (Ok Toy.url1, [Row.set_domainKey "00" Toy.row1])
  /\ Row.content Toy.row1
     = "313d713f702f656c706d6178652e612f2f3a7370747468"
  /\ resolve_short_link (L := Toy.libs) Toy.self 0 Toy.address1
       [Row.set_content "313D713f702f656c706d6178652e612f2f3a7370747468"
          Toy.row1]
     = (Ok Toy.url1,
        [Row.set_content "313D713f702f656c706d6178652e612f2f3a7370747468"
           Toy.row1]).
Proof. repeat split. vm_compute. discriminate. Qed.

(** * Further properties of the service *)

(** ** The domain of a URL *)

Lemma split_aux_nonempty (sep : string) (k : nat) (s : string) :
  Py.split_aux sep k s <> [].
Proof.
  revert k. induction s as [|c s IH]; intros k; cbn [Py.split_aux].
  - discriminate.
  - destruct k as [|k]; [|apply IH].
    destruct (String.prefix sep (String c s)); [discriminate|].
    destruct (Py.split_aux sep 0 s); discriminate.
Qed.

Lemma prefix_double_slash (c : ascii) (s : string) :
  String.prefix "//" (String c s)
  = Ascii.eqb c "/"
    && match s with
       | String d _ => Ascii.eqb d "/"
       | EmptyString => false
       end.
Proof.
  destruct s as [|d s]; cbn [String.prefix].
  - destruct (ascii_dec "/" c); now rewrite andb_false_r.
  - destruct (ascii_dec "/" c) as [<-|Hc].
    + rewrite Ascii.eqb_refl. cbn [andb].
      destruct (ascii_dec "/" d) as [<-|Hd].
      * now rewrite prefix_empty, Ascii.eqb_refl.
      * symmetry. apply Ascii.eqb_neq. congruence.
    + assert (E : Ascii.eqb c "/" = false)
        by (apply Ascii.eqb_neq; congruence).
      now rewrite E.
Qed.

(** [split('//')], one character at a time. *)
Lemma split_double_slash_cons (c : ascii) (s : string) :
  Py.split "//" (String c s)
  = if String.prefix "//" (String c s)
    then "" :: match s with
               | String _ s' => Py.split "//" s'
               | EmptyString => [""]
               end
    else match Py.split "//" s with
         | field :: fields => String c field :: fields
         | [] => [String c ""]
         end.
Proof.
  unfold Py.split. cbn [Py.split_aux].
  destruct (String.prefix "//" (String c s)); [|reflexivity].
  destruct s; reflexivity.
Qed.

Lemma split_double_slash_absent (s : string) :
  Py.no_double_slash s = true -> Py.split "//" s = [s].
Proof.
  induction s as [|c s IH]; [reflexivity|].
  cbn [Py.no_double_slash]. intros H.
  apply andb_true_iff in H. destruct H as [Hc Hs].
  rewrite split_double_slash_cons, prefix_double_slash.
  apply negb_true_iff in Hc. rewrite Hc. now rewrite (IH Hs).
Qed.

Lemma split_double_slash_append (a rest : string) :
  Py.no_double_slash (a ++ "/") = true ->
  Py.split "//" (a ++ "//" ++ rest) = a :: Py.split "//" rest.
Proof.
  induction a as [|c a IH]; intros H.
  - change ("" ++ "//" ++ rest) with (String "/" (String "/" rest)).
    rewrite split_double_slash_cons, prefix_double_slash. reflexivity.
  - change (String c a ++ "//" ++ rest)
      with (String c (a ++ "//" ++ rest)).
    change (String c a ++ "/") with (String c (a ++ "/")) in H.
    cbn [Py.no_double_slash] in H.
    apply andb_true_iff in H. destruct H as [Hc Ha].
    rewrite split_double_slash_cons, prefix_double_slash.
    assert (Hp : Ascii.eqb c "/"
                 && match a ++ "//" ++ rest with
                    | String d _ => Ascii.eqb d "/"
                    | EmptyString => false
                    end = false).
    { apply negb_true_iff in Hc. destruct a as [|d a]; [|exact Hc].
      cbn in Hc. cbn. destruct (Ascii.eqb c "/"); [discriminate|reflexivity]. }
    rewrite Hp. now rewrite (IH Ha).
Qed.

(** What lies before the first [/] is not changed by cutting at the first
    [//]. *)
Lemma hd_split_slash_double (s : string) :
  hd "" (Py.split "/" (hd "" (Py.split "//" s))) = hd "" (Py.split "/" s).
Proof.
  induction s as [|c s IH]; [reflexivity|].
  rewrite split_double_slash_cons.
  destruct (String.prefix "//" (String c s)) eqn:Hp.
  - rewrite prefix_double_slash in Hp. apply andb_true_iff in Hp.
    destruct Hp as [Hc _]. apply Ascii.eqb_eq in Hc. subst c.
    change "/" with (String "/" "") at 2.
    now rewrite split_char_cons, Ascii.eqb_refl.
  - change "/" with (String "/" "") in *.
    rewrite (split_char_cons "/" c s).
    destruct (Py.split "//" s) as [|f fs] eqn:Hf.
    + now apply split_aux_nonempty in Hf.
    + cbn [hd] in *. rewrite split_char_cons.
      destruct (Ascii.eqb "/" c); [reflexivity|].
      destruct (Py.split (String "/" "") f) as [|g gs] eqn:Hg;
        [now apply split_aux_nonempty in Hg|].
      destruct (Py.split (String "/" "") s) as [|h hs] eqn:Hh;
        [now apply split_aux_nonempty in Hh|].
      cbn [hd] in *. now rewrite IH.
Qed.

Lemma hd_split_slash_append (host path : string) :
  Py.contains "/" host = false ->
  hd "" (Py.split "/" (host ++ "/" ++ path)) = host.
Proof.
  intros H. change "/" with (String "/" "") at 1.
  change (host ++ "/" ++ path) with (host ++ String "/" path).
  now rewrite split_char_append.
Qed.

(** X1.  When the URL holds a [//], the domain is what stands between the
    first [//] and the next [/], or the end of the URL when no [/] follows:
    for [https://host/path] it is [host].  What stands before the first [//]
    plays no part, be it a scheme or not. *)
Theorem extract_domain_after_double_slash (a rest : string) :
  Py.no_double_slash (a ++ "/") = true ->
  extract_domain (a ++ "//" ++ rest) = hd "" (Py.split "/" rest)
  /\ (forall host path,
        rest = host ++ "/" ++ path -> Py.contains "/" host = false ->
        extract_domain (a ++ "//" ++ rest) = host)
  /\ (Py.contains "/" rest = false ->
      extract_domain (a ++ "//" ++ rest) = rest).
Proof.
  intros Ha.
  assert (E : extract_domain (a ++ "//" ++ rest) = hd "" (Py.split "/" rest)).
  { unfold extract_domain. rewrite (split_double_slash_append a rest Ha).
    cbn [nth_error].
    destruct (Py.split "//" rest) as [|f fs] eqn:Hf;
      [now apply split_aux_nonempty in Hf|].
    cbn [nth_error]. rewrite <- (hd_split_slash_double rest). now rewrite Hf. }
  split; [exact E|]. split.
  - intros host path -> Hh. rewrite E. now apply hd_split_slash_append.
  - intros Hr. rewrite E. change "/" with (String "/" "") at 1.
    now rewrite split_char_absent.
Qed.

Lemma extract_domain_after_double_slash_witness :
  extract_domain ("https:" ++ "//" ++ "www.example.com/path?param1=value1")
  = "www.example.com".
Proof.
  apply (proj1 (proj2 (extract_domain_after_double_slash "https:"
                         "www.example.com/path?param1=value1" eq_refl))
           "www.example.com" "path?param1=value1" eq_refl eq_refl).
Defined.

(** X2.  When the URL holds no [//], the domain is what stands before its
    first [/], and the whole URL when it holds no [/] at all. *)
Theorem extract_domain_without_double_slash (long_url : string) :
  Py.no_double_slash long_url = true ->
  extract_domain long_url = hd "" (Py.split "/" long_url)
  /\ (forall host path,
        long_url = host ++ "/" ++ path -> Py.contains "/" host = false ->
        extract_domain long_url = host)
  /\ (Py.contains "/" long_url = false -> extract_domain long_url = long_url).
Proof.
  intros Hn.
  assert (E : extract_domain long_url = hd "" (Py.split "/" long_url)).
  { unfold extract_domain.
    now rewrite (split_double_slash_absent long_url Hn). }
  split; [exact E|]. split.
  - intros host path -> Hh. rewrite E. now apply hd_split_slash_append.
  - intros Hr. rewrite E. change "/" with (String "/" "") at 1.
    now rewrite split_char_absent.
Qed.

Lemma extract_domain_without_double_slash_witness :
  extract_domain "www.example.com/a/b" = "www.example.com".
Proof.
  apply (proj1 (proj2 (extract_domain_without_double_slash
                         "www.example.com/a/b" eq_refl))
           "www.example.com" "a/b" eq_refl eq_refl).
Defined.

(** ** Creation and the rows already stored *)

Lemma id_taken_false (i : string) (st : store) :
  id_taken i st = false -> ~ In i (map Row.id st).
Proof.
  unfold id_taken. induction st as [|r st IH]; cbn [existsb map];
    intros H; [tauto|].
  apply orb_false_iff in H. destruct H as [Hr Hst].
  intros [E|HI]; [|now apply IH].
  rewrite E, String.eqb_refl in Hr. discriminate.
Qed.

Lemma id_taken_true (i : string) (st : store) :
  In i (map Row.id st) -> id_taken i st = true.
Proof.
  intros H. destruct (id_taken i st) eqn:E; [reflexivity|].
  now apply id_taken_false in E.
Qed.

(** X3.  The identifiers of the rows stay pairwise distinct under
    [generate_short_link], whether it succeeds or not; a call that draws an
    identifier already in the table raises and leaves the table as it was. *)
Theorem ids_stay_distinct `{L : Libs} (self : ShortLinkSystem) (d : draws)
    (long_url : string) (valid_hours : Z) (user : option string)
    (st : store) :
  NoDup (map Row.id st) ->
  NoDup (map Row.id
           (snd (generate_short_link self d long_url valid_hours user st)))
  /\ (In (uuid_id d) (map Row.id st) ->
      generate_short_link self d long_url valid_hours user st
      = (Err UncaughtError, st)).
Proof.
  intros ND. rewrite generate_short_link_unfold. split.
  - destruct (sm2_encrypt _ _ _) as [w|]; [|exact ND].
    destruct (id_taken (uuid_id d) st) eqn:E; [exact ND|].
    cbn [snd]. rewrite map_app. cbn [map inserted_row Row.id].
    apply id_taken_false in E.
    apply (Permutation_NoDup (l := uuid_id d :: map Row.id st)).
    + apply Permutation_cons_append.
    + now constructor.
  - intros Hin. rewrite (id_taken_true _ _ Hin).
    destruct (sm2_encrypt _ _ _); reflexivity.
Qed.

Lemma ids_stay_distinct_witness :
  generate_short_link (L := Toy.libs) Toy.self Toy.draws1 Toy.url2 24 None
    Toy.store1
  = (Err UncaughtError, Toy.store1).
Proof.
  apply (proj2 (ids_stay_distinct (L := Toy.libs) Toy.self Toy.draws1
                  Toy.url2 24 None Toy.store1
                  (NoDup_cons "id1" (fun H : In "id1" [] => H)
                     (NoDup_nil string)))).
  left. reflexivity.
Defined.

(** X4.  In the row a successful [generate_short_link] writes, the
    [domainKey] column is the symmetric key in the clear: decoded from
    hexadecimal it decrypts the [content] column to the URL, with no use of
    the private key; and the private key of the instance is in the row
    too. *)
Theorem stored_key_decrypts_content `{L : Libs} (self : ShortLinkSystem)
    (d : draws) (long_url : string) (valid_hours : Z) (user : option string)
    (st st' : store) (short_link : string) :
  LibLaws L self ->
  generate_short_link self d long_url valid_hours user st
  = (Ok short_link, st') ->
  exists record,
    st' = (st ++ [record])%list
    /\ decrypt_content record (Py.fromhex (Row.domainKey record))
       = Some long_url
    /\ Row.privateKey record = sm2_private_key self
    /\ Row.publicKey record = sm2_public_key self.
Proof.
  intros laws Hgen. rewrite generate_short_link_unfold in Hgen.
  destruct (sm2_encrypt _ _ _) as [w|]; [|discriminate].
  destruct (id_taken (uuid_id d) st); [discriminate|].
  exists (inserted_row self d long_url valid_hours user w).
  split; [congruence|]. split; [|split; reflexivity].
  unfold decrypt_content, inserted_row, _sm4_decrypt, _sm4_encrypt.
  cbn [Row.content Row.domainKey]. rewrite !fromhex_hex.
  rewrite (sm4_decrypt_encrypt L self laws).
  apply (decode_encode L self laws).
Qed.

Lemma stored_key_decrypts_content_witness :
  exists record,
    Toy.store1 = ([] ++ [record])%list
    /\ decrypt_content (L := Toy.libs) record
         (Py.fromhex (Row.domainKey record))
       = Some Toy.url1
    /\ Row.privateKey record = sm2_private_key Toy.self
    /\ Row.publicKey record = sm2_public_key Toy.self.
Proof.
  apply (stored_key_decrypts_content (L := Toy.libs) Toy.self Toy.draws1
           Toy.url1 1 (Some "alice") [] Toy.store1 Toy.address1 toy_laws
           eq_refl).
Defined.

Lemma find_app_some (p : Row.t -> bool) (st extra : store) (r : Row.t) :
  find p st = Some r -> find p (st ++ extra)%list = Some r.
Proof.
  induction st as [|x st IH]; cbn [find app]; [discriminate|].
  destruct (p x); [auto|exact IH].
Qed.

(** Under a pattern the engine refuses no row is taken as matching. *)
Lemma find_beyond_limit (domain pattern : string) (st : store) :
  Sqlite.within_limit pattern = false ->
  find (row_matches domain pattern) st = None.
Proof.
  intros Hl. apply find_none_iff. intros x _.
  unfold row_matches, Sqlite.like. rewrite Hl. apply andb_false_r.
Qed.

(** X5.  [generate_short_link] does not change what the addresses already
    known resolve to: an address that was not unknown before the call gives
    the same outcome after it, at the same time. *)
Theorem creation_keeps_older_links `{L : Libs} (self : ShortLinkSystem)
    (d : draws) (long_url : string) (valid_hours : Z) (user : option string)
    (st : store) (now : datetime) (short_url : string) :
  fst (resolve_short_link self now short_url st) <> Err NotFoundError ->
  fst (resolve_short_link self now short_url
         (snd (generate_short_link self d long_url valid_hours user st)))
  = fst (resolve_short_link self now short_url st).
Proof.
  intros Hknown. rewrite generate_short_link_unfold.
  destruct (sm2_encrypt _ _ _) as [w|]; [|reflexivity].
  destruct (id_taken (uuid_id d) st); [reflexivity|].
  cbn [snd]. rewrite !resolve_unfold in *.
  destruct (Py.split "/" short_url) as [|a [|b [|c l]]]; try reflexivity.
  unfold domain_has_row in *. rewrite existsb_app.
  destruct (Sqlite.within_limit (b ++ "%")) eqn:Hl; cbn [negb andb] in *.
  - destruct (find (row_matches a (b ++ "%")) st) as [r|] eqn:Hf.
    + now rewrite (find_app_some _ st _ r Hf).
    + now contradiction Hknown.
  - destruct (existsb (fun r => String.eqb (Row.domain r) a) st);
      [reflexivity|].
    exfalso. apply Hknown.
    now rewrite (find_beyond_limit a (b ++ "%") st Hl).
Qed.

Lemma creation_keeps_older_links_witness :
  fst (resolve_short_link (L := Toy.libs) Toy.self 0 Toy.address1
         (snd (generate_short_link (L := Toy.libs) Toy.self Toy.draws2
                 Toy.url2 1 None Toy.store1)))
  = fst (resolve_short_link (L := Toy.libs) Toy.self 0 Toy.address1
           Toy.store1).
Proof.
  apply (creation_keeps_older_links (L := Toy.libs)).
  discriminate.
Defined.

(** X6.  The address a successful [generate_short_link] returns holds exactly
    one [/], and in the table the call leaves it is neither malformed nor
    unknown, at any time and whatever the table held before. *)
Theorem returned_address_is_known `{L : Libs} (self : ShortLinkSystem)
    (d : draws) (long_url : string) (valid_hours : Z) (user : option string)
    (st st' : store) (short_link : string) :
  generate_short_link self d long_url valid_hours user st
  = (Ok short_link, st') ->
  Py.count "/" short_link = 1
  /\ forall now,
       fst (resolve_short_link self now short_link st')
       <> Err MalformedAddressError
       /\ fst (resolve_short_link self now short_link st')
          <> Err NotFoundError.
Proof.
  intros Hgen. rewrite generate_short_link_unfold in Hgen.
  destruct (sm2_encrypt _ _ _) as [w|]; [|discriminate].
  destruct (id_taken (uuid_id d) st); [discriminate|].
  assert (E1 : short_link
               = extract_domain long_url ++ "/" ++ Py.take 8 (Py.hex w))
    by congruence.
  assert (E2 : st' = (st ++ [inserted_row self d long_url valid_hours
                               user w])%list)
    by congruence.
  subst short_link st'. clear Hgen. split.
  - pose proof (split_char_length "/"
                  (extract_domain long_url ++ "/" ++ Py.take 8 (Py.hex w)))
      as Hlen.
    change (String "/" "") with "/" in Hlen.
    rewrite split_short_link in Hlen. cbn [List.length] in Hlen. lia.
  - intros now. rewrite resolve_returned_address.
    destruct (find (row_matches (extract_domain long_url)
                      (Py.take 8 (Py.hex w) ++ "%")) st) as [r|] eqn:Hf.
    + rewrite (find_app_some _ st _ r Hf). cbn [fst].
      pose proof (check_record_errors self now r). tauto.
    + rewrite (find_app_none _ st _ Hf
                 (inserted_row_matches self d long_url valid_hours user w)).
      cbn [fst].
      pose proof (check_record_errors self now
                    (inserted_row self d long_url valid_hours user w)).
      tauto.
Qed.

Lemma returned_address_is_known_witness :
  Py.count "/" Toy.address1 = 1
  /\ forall now,
       fst (resolve_short_link (L := Toy.libs) Toy.self now Toy.address1
              Toy.store1)
       <> Err MalformedAddressError
       /\ fst (resolve_short_link (L := Toy.libs) Toy.self now Toy.address1
                 Toy.store1)
          <> Err NotFoundError.
Proof.
  apply (returned_address_is_known (L := Toy.libs) Toy.self Toy.draws1
           Toy.url1 1 (Some "alice") [] Toy.store1 Toy.address1 eq_refl).
Defined.

(** ** How long a link lives *)

Lemma whole_second_bounds (t : datetime) :
  (t - 999999 <= whole_second t <= t)%Z.
Proof.
  unfold whole_second.
  pose proof (Z.mod_pos_bound t 1000000 ltac:(lia)). lia.
Qed.

(** X7.  With libraries that satisfy [LibLaws], a link whose address matched
    no row before its creation resolves to its URL at every time up to
    [valid_hours] hours after the second clock reading of the call, less one
    second, and raises the expired error at every time more than
    [valid_hours] hours after that reading.  The hours are not checked: with
    a negative number the link is expired from the start. *)
Theorem validity_window `{L : Libs} (self : ShortLinkSystem)
    (d : draws) (long_url : string) (valid_hours : Z) (user : option string)
    (st st' : store) (short_link : string) :
  LibLaws L self ->
  generate_short_link self d long_url valid_hours user st
  = (Ok short_link, st') ->
  resolve_short_link self (now_create d) short_link st
  = (Err NotFoundError, st) ->
  (forall now,
      (now <= now_expiry d + timedelta_hours valid_hours - 999999)%Z ->
      resolve_short_link self now short_link st' = (Ok long_url, st'))
  /\ (forall now,
        (now_expiry d + timedelta_hours valid_hours < now)%Z ->
        resolve_short_link self now short_link st' = (Err ExpiredError, st'))
  /\ ((valid_hours < 0)%Z ->
      forall now,
        (now_expiry d <= now)%Z ->
        resolve_short_link self now short_link st' = (Err ExpiredError, st')).
Proof.
  intros laws Hgen Hnew.
  rewrite generate_short_link_unfold in Hgen.
  destruct (sm2_encrypt _ _ _) as [w|] eqn:Hw; [|discriminate].
  destruct (id_taken (uuid_id d) st); [discriminate|].
  assert (E1 : short_link
               = extract_domain long_url ++ "/" ++ Py.take 8 (Py.hex w))
    by congruence.
  assert (E2 : st' = (st ++ [inserted_row self d long_url valid_hours
                               user w])%list)
    by congruence.
  subst short_link st'. clear Hgen.
  rewrite resolve_returned_address in Hnew.
  assert (Hnone : find (row_matches (extract_domain long_url)
                          (Py.take 8 (Py.hex w) ++ "%")) st = None).
  { destruct (find _ st) as [r|]; [|reflexivity].
    exfalso.
    assert (H' : check_record self (now_create d) r = Err NotFoundError)
      by congruence.
    now apply (check_record_errors self (now_create d) r) in H'. }
  assert (Hres : forall now,
    resolve_short_link self now
      (extract_domain long_url ++ "/" ++ Py.take 8 (Py.hex w))
      (st ++ [inserted_row self d long_url valid_hours user w])%list
    = (check_record self now
         (inserted_row self d long_url valid_hours user w),
       (st ++ [inserted_row self d long_url valid_hours user w])%list)).
  { intros now. rewrite resolve_returned_address.
    now rewrite (find_app_none _ st _ Hnone
                   (inserted_row_matches self d long_url valid_hours
                      user w)). }
  pose proof (whole_second_bounds
                (now_expiry d + timedelta_hours valid_hours)) as Hb.
  assert (Hlate : forall now,
    (now_expiry d + timedelta_hours valid_hours < now)%Z ->
    check_record self now (inserted_row self d long_url valid_hours user w)
    = Err ExpiredError).
  { intros now Hnow. unfold check_record.
    rewrite (inserted_row_expiry self laws).
    destruct (Z.gtb_spec now
                (whole_second (now_expiry d + timedelta_hours valid_hours)))
      as [_|Hle]; [reflexivity|lia]. }
  split; [|split].
  - intros now Hnow. rewrite Hres. f_equal.
    apply (check_inserted_row self laws); [exact Hw|lia].
  - intros now Hnow. rewrite Hres. f_equal. now apply Hlate.
  - intros Hneg now Hnow. rewrite Hres. f_equal. apply Hlate.
    unfold timedelta_hours. lia.
Qed.

Lemma validity_window_witness :
  resolve_short_link (L := Toy.libs) Toy.self 3700000001 Toy.address1
    Toy.store1
  = (Err ExpiredError, Toy.store1).
Proof.
  apply (proj1 (proj2 (validity_window (L := Toy.libs) Toy.self Toy.draws1
                         Toy.url1 1 (Some "alice") [] Toy.store1
                         Toy.address1 toy_laws eq_refl eq_refl))).
  reflexivity.
Defined.

(** X8.  On one table, time only moves an outcome towards the expired
    error: at a later time the outcome of an address is the expired error or
    what it was at the earlier time, and an address expired at the earlier
    time is expired at the later one. *)
Theorem expiry_is_final `{L : Libs} (self : ShortLinkSystem)
    (now now' : datetime) (short_url : string) (st : store) :
  (now <= now')%Z ->
  (fst (resolve_short_link self now' short_url st) = Err ExpiredError
   \/ fst (resolve_short_link self now' short_url st)
      = fst (resolve_short_link self now short_url st))
  /\ (fst (resolve_short_link self now short_url st) = Err ExpiredError ->
      fst (resolve_short_link self now' short_url st) = Err ExpiredError).
Proof.
  intros Hle. rewrite !resolve_unfold.
  destruct (Py.split "/" short_url) as [|a [|b [|c l]]];
    try (split; [now right | discriminate]).
  destruct (negb (Sqlite.within_limit (b ++ "%")) && domain_has_row a st);
    [split; [now right | discriminate]|].
  destruct (find (row_matches a (b ++ "%")) st) as [r|];
    [|split; [now right | discriminate]].
  cbn [fst]. unfold check_record.
  destruct (parse_useful_time r) as [e|];
    [|split; [now right | discriminate]].
  destruct (Z.gtb_spec now e) as [Hn|Hn],
           (Z.gtb_spec now' e) as [Hn'|Hn']; try lia.
  - split; [now left | reflexivity].
  - split; [now left | reflexivity].
  - split; [now right|].
    destruct (unwrap_key self r) as [k|]; [|discriminate].
    destruct (decrypt_content r k) as [s|]; [|discriminate].
    destruct k as [k|]; [|discriminate].
    destruct (String.eqb _ _); discriminate.
Qed.

Lemma expiry_is_final_witness :
  fst (resolve_short_link (L := Toy.libs) Toy.self 3700000002 Toy.address1
         Toy.store1)
  = Err ExpiredError.
Proof.
  apply (proj2 (expiry_is_final (L := Toy.libs) Toy.self 3700000001
                  3700000002 Toy.address1 Toy.store1 ltac:(lia))).
  reflexivity.
Defined.

(** ** What the signature binds *)

(** Text moved from the end of the content to the start of the creation
    time, with the name of the field between them. *)
Lemma sign_str_shift `{L : Libs} (domain c x t : string) (k : bytes) :
  sign_str (sign_params domain (c ++ "createTime" ++ x) t k)
  = sign_str (sign_params domain c (x ++ "createTime" ++ t) k).
Proof.
  rewrite !sign_str_params.
  change ("content" ++ ?u) with (String.append "content" u).
  f_equal. now rewrite !append_assoc.
Qed.

(** X9.  The signed string marks no boundary between a name and its value
    or between one field and the next.  A dictionary with the one item
    [(k ++ v1, v2)] and the one with [(k, v1 ++ v2)] are both signed by the
    digest of [k ++ v1 ++ v2].  The four signed fields with the content
    [c ++ "createTime" ++ x] and the creation time [t], and with the
    content [c] and the creation time [x ++ "createTime" ++ t], are both
    signed by the digest of one text, though the contents differ. *)
Theorem sign_marks_no_boundaries `{L : Libs} :
  (forall k v1 v2 : string,
      _generate_sign [(k ++ v1, v2)]
      = md5_hexdigest (str_encode (k ++ v1 ++ v2))
      /\ _generate_sign [(k, v1 ++ v2)]
         = md5_hexdigest (str_encode (k ++ v1 ++ v2)))
  /\ (forall (domain c x t : string) (key : bytes),
        _generate_sign (sign_params domain (c ++ "createTime" ++ x) t key)
        = md5_hexdigest
            (str_encode
               ("content" ++ c ++ "createTime" ++ x ++ "createTime" ++ t
                ++ "domain" ++ domain ++ "domainKey" ++ Py.hex key))
        /\ _generate_sign
             (sign_params domain c (x ++ "createTime" ++ t) key)
           = md5_hexdigest
               (str_encode
                  ("content" ++ c ++ "createTime" ++ x ++ "createTime" ++ t
                   ++ "domain" ++ domain ++ "domainKey" ++ Py.hex key))
        /\ c ++ "createTime" ++ x <> c).
Proof.
  split.
  - intros k v1 v2. unfold _generate_sign, sign_str, join.
    cbn [keys map fst sorted insert_sorted getitem String.concat].
    rewrite !String.eqb_refl. now rewrite append_assoc.
  - intros domain c x t key. split; [|split].
    + rewrite generate_sign_params. do 2 f_equal.
      change ("content" ++ ?u) with (String.append "content" u).
      f_equal. now rewrite !append_assoc.
    + rewrite generate_sign_params. do 2 f_equal.
      change ("content" ++ ?u) with (String.append "content" u).
      f_equal. now rewrite !append_assoc.
    + intros H. apply (f_equal String.length) in H.
      rewrite append_length in H. cbn in H. lia.
Qed.

Lemma sign_marks_no_boundaries_witness :
  _generate_sign (L := Toy.libs) [("ab", "c")] = "616263"
  /\ _generate_sign (L := Toy.libs) [("a", "bc")] = "616263".
Proof.
  exact (proj1 (sign_marks_no_boundaries (L := Toy.libs)) "a" "b" "c").
Defined.

(** X10.  With libraries that satisfy [LibLaws]: take a row that checks out
    to a URL holding the text [createTime], of the form
    [c ++ "createTime" ++ x].  Overwrite its content with the encryption of
    [c] under the row's key, and its creation time with
    [x ++ "createTime"] followed by the old creation time.  The row checks
    out again, to [c]: the signature stored is still the right one. *)
Theorem shifted_row_checks_out `{L : Libs} (self : ShortLinkSystem)
    (now : datetime) (record : Row.t) (c x : string) (key : bytes) :
  LibLaws L self ->
  check_record self now record = Ok (c ++ "createTime" ++ x) ->
  unwrap_key self record = Some (Some key) ->
  check_record self now
    (Row.set_create_time (x ++ "createTime" ++ Row.create_time record)
       (Row.set_content (Py.hex (_sm4_encrypt c key)) record))
  = Ok c.
Proof.
  intros laws Hok Hk.
  apply check_record_ok in Hok.
  destruct Hok as (e & k0 & Hp & Hle & Hk0 & _ & Hsign).
  assert (k0 = key) by congruence. subst k0.
  apply check_record_ok. exists e, key.
  split; [exact Hp|]. split; [exact Hle|]. split; [exact Hk|]. split.
  - unfold decrypt_content, _sm4_decrypt, _sm4_encrypt.
    cbn [Row.content Row.set_create_time Row.set_content].
    rewrite fromhex_hex, (sm4_decrypt_encrypt L self laws).
    apply (decode_encode L self laws).
  - cbn [Row.domain Row.create_time Row.sign Row.set_create_time
           Row.set_content].
    rewrite <- Hsign. unfold _generate_sign. now rewrite sign_str_shift.
Qed.

Lemma shifted_row_checks_out_witness :
  check_record (L := Toy.libs) Toy.self 0
    (Row.set_create_time ("=1" ++ "createTime" ++ Row.create_time Toy.row3)
       (Row.set_content
          (Py.hex (_sm4_encrypt (L := Toy.libs) "https://a.example/?"
                     (_generate_sm4_key (L := Toy.libs) "u3")))
          Toy.row3))
  = Ok "https://a.example/?".
Proof.
  apply (shifted_row_checks_out (L := Toy.libs) Toy.self 0 Toy.row3
           "https://a.example/?" "=1"
           (_generate_sm4_key (L := Toy.libs) "u3")
           toy_laws eq_refl eq_refl).
Defined.

(** X11.  For one domain and one creation time, two signatures of the four
    fields agree only when the contents agree and the keys agree, or when
    the two signed strings differ and have one MD5 digest; for one domain,
    content and key, only when the creation times agree, or when the two
    signed strings differ and have one MD5 digest. *)
Theorem signature_binds_single_fields `{L : Libs} (domain : string) :
  (forall (t s s' : string) (k k' : bytes),
      _generate_sign (sign_params domain s t k)
      = _generate_sign (sign_params domain s' t k') ->
      (s = s' /\ k = k')
      \/ digests_collide (signed_string domain s t k)
           (signed_string domain s' t k'))
  /\ (forall (s t t' : string) (k : bytes),
        _generate_sign (sign_params domain s t k)
        = _generate_sign (sign_params domain s t' k) ->
        t = t'
        \/ digests_collide (signed_string domain s t k)
             (signed_string domain s t' k)).
Proof.
  split.
  - intros t s s' k k' H.
    destruct (string_dec (signed_string domain s t k)
                (signed_string domain s' t k')) as [E|N].
    + left. now apply signed_string_content_key in E.
    + right. split; [exact N|].
      now rewrite <- !generate_sign_signed_string.
  - intros s t t' k H.
    destruct (string_dec (signed_string domain s t k)
                (signed_string domain s t' k)) as [E|N].
    + left. now apply signed_string_create_time in E.
    + right. split; [exact N|].
      now rewrite <- !generate_sign_signed_string.
Qed.

Lemma signature_binds_single_fields_witness :
  ("100" = "100")
  \/ digests_collide (L := Toy.libs)
       (signed_string "a.example" "u" "100" [])
       (signed_string "a.example" "u" "100" []).
Proof.
  apply (proj2 (signature_binds_single_fields (L := Toy.libs) "a.example")
           "u" "100" "100" [] eq_refl).
Defined.

(** ** Codes that are not hexadecimal digits *)

Lemma find_ext_eq (p q : Row.t -> bool) (st : store) :
  (forall r, p r = q r) -> find p st = find q st.
Proof.
  intros H. induction st as [|x st IH]; cbn [find]; [reflexivity|].
  now rewrite H, IH.
Qed.

Lemma like_text_all_percent (code s : string) :
  Py.forallb_str (fun c => Ascii.eqb c "%") code = true ->
  Sqlite.like_text (code ++ "%") s = true.
Proof.
  revert s. induction code as [|p code IH]; intros s H.
  - apply like_text_percent.
  - cbn [Py.forallb_str] in H. apply andb_true_iff in H.
    destruct H as [Hp Hcode]. apply Ascii.eqb_eq in Hp. subst p.
    change (String "%" code ++ "%") with (String "%" (code ++ "%")).
    destruct s as [|c s]; cbn; now rewrite (IH _ Hcode).
Qed.

Lemma like_all_percent (code s : string) :
  Py.forallb_str (fun c => Ascii.eqb c "%") code = true ->
  Sqlite.within_limit (code ++ "%") = true ->
  Sqlite.like (code ++ "%") s = true.
Proof.
  intros Hc Hl. unfold Sqlite.like. rewrite Hl. cbn [andb].
  rewrite (until_nul_absent (code ++ "%")).
  - now apply like_text_all_percent.
  - rewrite forallb_str_append. cbn [Py.forallb_str].
    rewrite (forallb_str_impl (fun c => Ascii.eqb c "%") _ code);
      [reflexivity| |exact Hc].
    intros c E. apply Ascii.eqb_eq in E. now subst c.
Qed.

Lemma like_text_underscores (n : nat) (s : string) :
  Sqlite.like_text (Py.repeat "_" n ++ "%") s = (n <=? String.length s)%nat.
Proof.
  revert s. induction n as [|n IH]; intros s.
  - apply like_text_percent.
  - change (Py.repeat "_" (S n) ++ "%")
      with (String "_" (Py.repeat "_" n ++ "%")).
    destruct s as [|c s]; [reflexivity|].
    cbn [Sqlite.like_text String.length]. cbn [Ascii.eqb Bool.eqb].
    cbn [orb andb]. now rewrite IH.
Qed.

Lemma until_nul_underscores (n : nat) :
  Sqlite.until_nul (Py.repeat "_" n ++ "%") = Py.repeat "_" n ++ "%".
Proof. induction n as [|n IH]; [reflexivity|]. cbn. now rewrite IH. Qed.

Lemma like_underscores (n : nat) (s : string) :
  Sqlite.within_limit (Py.repeat "_" n ++ "%") = true ->
  Sqlite.like (Py.repeat "_" n ++ "%") s
  = (n <=? String.length (Sqlite.until_nul s))%nat.
Proof.
  intros Hl. unfold Sqlite.like. rewrite Hl. cbn [andb].
  rewrite until_nul_underscores. apply like_text_underscores.
Qed.

Lemma repeat_underscore_no_slash (n : nat) :
  Py.contains "/" (Py.repeat "_" n) = false.
Proof. induction n as [|n IH]; [reflexivity | exact IH]. Qed.

Lemma split_address (domain code : string) :
  Py.contains "/" domain = false -> Py.contains "/" code = false ->
  Py.split "/" (domain ++ "/" ++ code) = [domain; code].
Proof.
  intros Hd Hc. change "/" with (String "/" "") at 1.
  change (domain ++ "/" ++ code) with (domain ++ String "/" code).
  now rewrite split_char_append, split_char_absent.
Qed.

(** X12.  An address whose code is empty, or made of at most 49999 [%]
    only, is looked up by its domain alone: the oldest row of the domain is
    the one checked, whatever its stored code, and the call raises the
    not-found error only when the domain has no row. *)
Theorem percent_code_fetches_by_domain `{L : Libs} (self : ShortLinkSystem)
    (now : datetime) (domain code : string) (st : store) :
  Py.contains "/" domain = false ->
  Py.forallb_str (fun c => Ascii.eqb c "%") code = true ->
  (Sqlite.utf8_bytes (code ++ "%") <= 50000)%N ->
  resolve_short_link self now (domain ++ "/" ++ code) st
  = match find (fun r => String.eqb (Row.domain r) domain) st with
    | Some record => (check_record self now record, st)
    | None => (Err NotFoundError, st)
    end.
Proof.
  intros Hd Hc Hbytes.
  assert (Hl : Sqlite.within_limit (code ++ "%") = true)
    by (unfold Sqlite.within_limit; now apply N.leb_le).
  rewrite (resolve_within self now _ domain code st); [| |exact Hl].
  - rewrite (find_ext_eq (row_matches domain (code ++ "%"))
               (fun r => String.eqb (Row.domain r) domain)); [reflexivity|].
    intros r. unfold row_matches.
    now rewrite like_all_percent, andb_true_r.
  - apply split_address; [exact Hd|].
    apply (forallb_str_absent (fun c => Ascii.eqb c "%")); [reflexivity|].
    exact Hc.
Qed.

Lemma percent_code_fetches_by_domain_witness :
  resolve_short_link (L := Toy.libs) Toy.self 0 ("a.example" ++ "/" ++ "")
    Toy.store1
  = (Ok Toy.url1, Toy.store1).
Proof.
  apply (percent_code_fetches_by_domain (L := Toy.libs) Toy.self 0
           "a.example" "" Toy.store1 eq_refl eq_refl
           ltac:(vm_compute; discriminate)).
Defined.

(** X13.  An address whose code is [n] times [_], with [n] at most 49999,
    is looked up by its domain and the length of the stored code: the
    oldest row of the domain whose stored code, read up to its first NUL if
    it has one, has at least [n] characters is the one checked. *)
Theorem underscore_code_fetches_by_length `{L : Libs}
    (self : ShortLinkSystem) (now : datetime) (domain : string) (n : nat)
    (st : store) :
  Py.contains "/" domain = false ->
  (Sqlite.utf8_bytes (Py.repeat "_" n ++ "%") <= 50000)%N ->
  resolve_short_link self now (domain ++ "/" ++ Py.repeat "_" n) st
  = match find (fun r => String.eqb (Row.domain r) domain
                         && (n <=? String.length
                                     (Sqlite.until_nul (Row.short_code r)))%nat)
            st with
    | Some record => (check_record self now record, st)
    | None => (Err NotFoundError, st)
    end.
Proof.
  intros Hd Hbytes.
  assert (Hl : Sqlite.within_limit (Py.repeat "_" n ++ "%") = true)
    by (unfold Sqlite.within_limit; now apply N.leb_le).
  rewrite (resolve_within self now _ domain (Py.repeat "_" n) st
             (split_address _ _ Hd (repeat_underscore_no_slash n)) Hl).
  rewrite (find_ext_eq (row_matches domain (Py.repeat "_" n ++ "%"))
             (fun r => String.eqb (Row.domain r) domain
                       && (n <=? String.length
                                   (Sqlite.until_nul (Row.short_code r)))%nat));
    [reflexivity|].
  intros r. unfold row_matches. now rewrite like_underscores.
Qed.

Lemma underscore_code_fetches_by_length_witness :
  resolve_short_link (L := Toy.libs) Toy.self 0
    ("a.example" ++ "/" ++ Py.repeat "_" 16) Toy.store1
  = (Ok Toy.url1, Toy.store1).
Proof.
  apply (underscore_code_fetches_by_length (L := Toy.libs) Toy.self 0
           "a.example" 16 Toy.store1 eq_refl
           ltac:(vm_compute; discriminate)).
Defined.

(** ** Letters in the code, rows of other domains, fractions of a second *)

Lemma lower_keeps_percent (a : ascii) :
  Ascii.eqb a "%" = Ascii.eqb (Py.lower a) "%".
Proof. destruct a as [[] [] [] [] [] [] [] []]; reflexivity. Qed.

Lemma lower_keeps_underscore (a : ascii) :
  Ascii.eqb a "_" = Ascii.eqb (Py.lower a) "_".
Proof. destruct a as [[] [] [] [] [] [] [] []]; reflexivity. Qed.

Lemma lower_keeps_nul (a : ascii) :
  Sqlite.is_nul (Py.lower a) = Sqlite.is_nul a.
Proof. destruct a as [[] [] [] [] [] [] [] []]; reflexivity. Qed.

Lemma lower_keeps_bytes (a : ascii) :
  (N_of_ascii (Py.lower a) <? 128)%N = (N_of_ascii a <? 128)%N.
Proof. destruct a as [[] [] [] [] [] [] [] []]; reflexivity. Qed.

Lemma like_text_any_run_ext (p q : string) :
  (forall s, Sqlite.like_text p s = Sqlite.like_text q s) ->
  forall s, Sqlite.like_text (String "%" p) s
            = Sqlite.like_text (String "%" q) s.
Proof.
  intros H s. induction s as [|c s IH].
  - cbn. now rewrite H.
  - change (Sqlite.like_text (String "%" p) (String c s))
      with (Sqlite.like_text p (String c s)
            || Sqlite.like_text (String "%" p) s).
    change (Sqlite.like_text (String "%" q) (String c s))
      with (Sqlite.like_text q (String c s)
            || Sqlite.like_text (String "%" q) s).
    now rewrite H, IH.
Qed.

Lemma like_text_fold_case (p q : string) :
  Sqlite.fold_case p = Sqlite.fold_case q ->
  forall s, Sqlite.like_text p s = Sqlite.like_text q s.
Proof.
  revert q. induction p as [|a p IH]; intros [|b q] H; try discriminate.
  - reflexivity.
  - cbn [Sqlite.fold_case] in H. injection H as Hab Hpq.
    specialize (IH q Hpq).
    assert (Hpc : Ascii.eqb a "%" = Ascii.eqb b "%")
      by (rewrite (lower_keeps_percent a), (lower_keeps_percent b);
          now rewrite Hab).
    assert (Hus : Ascii.eqb a "_" = Ascii.eqb b "_")
      by (rewrite (lower_keeps_underscore a), (lower_keeps_underscore b);
          now rewrite Hab).
    destruct (Ascii.eqb a "%") eqn:Ea.
    + symmetry in Hpc. apply Ascii.eqb_eq in Ea, Hpc. subst a b.
      now apply like_text_any_run_ext.
    + intros s. cbn [Sqlite.like_text]. rewrite Ea, <- Hpc.
      destruct s as [|c s]; [reflexivity|].
      now rewrite Hus, Hab, IH.
Qed.

Lemma until_nul_fold_case (p q : string) :
  Sqlite.fold_case p = Sqlite.fold_case q ->
  Sqlite.fold_case (Sqlite.until_nul p)
  = Sqlite.fold_case (Sqlite.until_nul q).
Proof.
  revert q. induction p as [|a p IH]; intros [|b q] H; try discriminate.
  - reflexivity.
  - cbn [Sqlite.fold_case] in H. injection H as Hab Hpq.
    cbn [Sqlite.until_nul].
    rewrite <- (lower_keeps_nul a), <- (lower_keeps_nul b), Hab.
    destruct (Sqlite.is_nul (Py.lower b)); [reflexivity|].
    cbn [Sqlite.fold_case]. now rewrite Hab, (IH q Hpq).
Qed.

Lemma utf8_bytes_fold_case (p q : string) :
  Sqlite.fold_case p = Sqlite.fold_case q ->
  Sqlite.utf8_bytes p = Sqlite.utf8_bytes q.
Proof.
  revert q. induction p as [|a p IH]; intros [|b q] H; try discriminate.
  - reflexivity.
  - cbn [Sqlite.fold_case] in H. injection H as Hab Hpq.
    cbn [Sqlite.utf8_bytes].
    rewrite <- (lower_keeps_bytes a), <- (lower_keeps_bytes b), Hab.
    now rewrite (IH q Hpq).
Qed.

Lemma like_fold_case (p q : string) :
  Sqlite.fold_case p = Sqlite.fold_case q ->
  forall s, Sqlite.like p s = Sqlite.like q s.
Proof.
  intros H s. unfold Sqlite.like, Sqlite.within_limit.
  rewrite (utf8_bytes_fold_case p q H). f_equal.
  apply like_text_fold_case. now apply until_nul_fold_case.
Qed.

Lemma fold_case_append (a b : string) :
  Sqlite.fold_case (a ++ b) = Sqlite.fold_case a ++ Sqlite.fold_case b.
Proof.
  induction a as [|x a IH]; cbn; [reflexivity | now rewrite IH].
Qed.

(** X14.  The code of an address is read without regard to the case of its
    ASCII letters: two addresses of one domain whose codes differ in case
    only have the same outcome. *)
Theorem code_case_is_ignored `{L : Libs} (self : ShortLinkSystem)
    (now : datetime) (short_url short_url' domain code code' : string)
    (st : store) :
  Py.split "/" short_url = [domain; code] ->
  Py.split "/" short_url' = [domain; code'] ->
  Sqlite.fold_case code = Sqlite.fold_case code' ->
  resolve_short_link self now short_url st
  = resolve_short_link self now short_url' st.
Proof.
  intros Hs Hs' Hc. rewrite !resolve_unfold, Hs, Hs'.
  assert (Hp : Sqlite.fold_case (code ++ "%")
               = Sqlite.fold_case (code' ++ "%"))
    by (rewrite !fold_case_append; now rewrite Hc).
  unfold Sqlite.within_limit. rewrite (utf8_bytes_fold_case _ _ Hp).
  rewrite (find_ext_eq (row_matches domain (code ++ "%"))
             (row_matches domain (code' ++ "%"))); [reflexivity|].
  intros r. unfold row_matches. f_equal.
  now apply like_fold_case.
Qed.

Lemma code_case_is_ignored_witness :
  resolve_short_link (L := Toy.libs) Toy.self 0 "a.example/6B6B6B6B"
    Toy.store1
  = resolve_short_link (L := Toy.libs) Toy.self 0 Toy.address1 Toy.store1.
Proof.
  apply (code_case_is_ignored (L := Toy.libs) Toy.self 0
           "a.example/6B6B6B6B" Toy.address1 "a.example" "6B6B6B6B"
           "6b6b6b6b" Toy.store1 eq_refl eq_refl eq_refl).
Defined.

Lemma find_filter (p q : Row.t -> bool) (st : store) :
  (forall r, p r = true -> q r = true) ->
  find p (filter q st) = find p st.
Proof.
  intros H. induction st as [|x st IH]; [reflexivity|].
  cbn [filter find]. destruct (q x) eqn:Eq.
  - cbn [find]. now rewrite IH.
  - destruct (p x) eqn:Ep; [|exact IH].
    apply H in Ep. congruence.
Qed.

Lemma domain_has_row_filter (domain : string) (st : store) :
  domain_has_row domain
    (filter (fun r => String.eqb (Row.domain r) domain) st)
  = domain_has_row domain st.
Proof.
  unfold domain_has_row. induction st as [|x st IH]; [reflexivity|].
  cbn [filter existsb].
  destruct (String.eqb (Row.domain x) domain) eqn:E.
  - cbn [existsb]. now rewrite E.
  - exact IH.
Qed.

(** X15.  The rows of the other domains play no part: the outcome of an
    address is the one it has on the table cut down to the rows of its
    domain. *)
Theorem other_domains_play_no_part `{L : Libs} (self : ShortLinkSystem)
    (now : datetime) (short_url domain code : string) (st : store) :
  Py.split "/" short_url = [domain; code] ->
  fst (resolve_short_link self now short_url
         (filter (fun r => String.eqb (Row.domain r) domain) st))
  = fst (resolve_short_link self now short_url st).
Proof.
  intros Hs. rewrite !resolve_unfold, Hs.
  rewrite (domain_has_row_filter domain st).
  rewrite (find_filter (row_matches domain (code ++ "%"))
             (fun r => String.eqb (Row.domain r) domain)).
  - destruct (negb (Sqlite.within_limit (code ++ "%"))
              && domain_has_row domain st); [reflexivity|].
    destruct (find (row_matches domain (code ++ "%")) st); reflexivity.
  - intros r Hr. unfold row_matches in Hr.
    now apply andb_true_iff in Hr.
Qed.

Lemma other_domains_play_no_part_witness :
  fst (resolve_short_link (L := Toy.libs) Toy.self 0 "b.example/6b6b6b6b"
         (filter (fun r => String.eqb (Row.domain r) "b.example")
            Toy.store1))
  = fst (resolve_short_link (L := Toy.libs) Toy.self 0 "b.example/6b6b6b6b"
           Toy.store1).
Proof.
  apply (other_domains_play_no_part (L := Toy.libs) Toy.self 0
           "b.example/6b6b6b6b" "b.example" "6b6b6b6b" Toy.store1 eq_refl).
Defined.

(** X16.  A row whose [useful_time] holds a fraction of a second is read as
    if it did not: what follows the first [.] is dropped before the time is
    parsed, and a time with no [.] is parsed as it stands. *)
Theorem useful_time_fraction_is_dropped `{L : Libs} (record : Row.t)
    (whole fraction : string) :
  Py.contains "." whole = false ->
  (Row.useful_time record = whole ++ "." ++ fraction ->
   parse_useful_time record = strptime whole)
  /\ (Row.useful_time record = whole ->
      parse_useful_time record = strptime whole).
Proof.
  intros Hw. unfold parse_useful_time.
  split; intros ->.
  - change (whole ++ "." ++ fraction) with (whole ++ String "." fraction).
    now rewrite split_char_append.
  - now rewrite split_char_absent.
Qed.

Lemma useful_time_fraction_is_dropped_witness :
  parse_useful_time (L := Toy.libs)
    (Row.mk "id9" "a.example" "" "" "3700.250000" 1 "" "" "" "" 0 None "100")
  = strptime (Libs := Toy.libs) "3700".
Proof.
  apply (proj1 (useful_time_fraction_is_dropped (L := Toy.libs)
                  (Row.mk "id9" "a.example" "" "" "3700.250000" 1 "" "" ""
                     "" 0 None "100")
                  "3700" "250000" eq_refl) eq_refl).
Defined.

(** X17.  For a row that is not expired: a stored code that is no
    hexadecimal text raises the asymmetric-decrypt error, whatever the
    content; a stored code whose key unwraps with a content that is no
    hexadecimal text raises the symmetric-decrypt error.  The failure of
    [bytes.fromhex] is reported under the message of the cipher whose block
    it stands in. *)
Theorem undecodable_columns `{L : Libs} (self : ShortLinkSystem)
    (now : datetime) (record : Row.t) (useful_time : datetime) :
  parse_useful_time record = Some useful_time ->
  (now <= useful_time)%Z ->
  (Py.fromhex (Row.short_code record) = None ->
   check_record self now record = Err AsymmetricDecryptError)
  /\ (forall key,
        unwrap_key self record = Some (Some key) ->
        Py.fromhex (Row.content record) = None ->
        check_record self now record = Err SymmetricDecryptError).
Proof.
  intros Hp Hle. split.
  - intros Hc. unfold check_record, unwrap_key. rewrite Hp, Hc.
    destruct (Z.gtb_spec now useful_time) as [Hlt|_]; [lia|reflexivity].
  - intros key Hk Hc.
    rewrite (check_record_unwrapped self now record useful_time key
               Hp Hle Hk).
    unfold decrypt_content. now rewrite Hc.
Qed.

Lemma undecodable_columns_witness :
  check_record (L := Toy.libs) Toy.self 0
    (Row.set_content "313" Toy.row1)
  = Err SymmetricDecryptError.
Proof.
  apply (proj2 (undecodable_columns (L := Toy.libs) Toy.self 0
                  (Row.set_content "313" Toy.row1) 3700000000
                  eq_refl ltac:(lia))
           (_generate_sm4_key (L := Toy.libs) "u1") eq_refl eq_refl).
Defined.
